(** * Client-side orchestration layer of the chat front end

    A shallow embedding of [src/app/app/page.tsx] (the [AppPage] component),
    of the parts of [src/lib/api-client.ts] that build the values it stores,
    and of [handleConfirmRename] from [src/components/conversations-sidebar.tsx].

    Conventions of the embedding.
    - A JavaScript string is the list of its UTF-16 code units.
    - [new Date().toISOString()] is kept symbolic: the constructor [Iso] applied
      to the clock reading in milliseconds; [Date.now()] is the reading itself.
    - Every [useState] cell and every [useRef] cell of [AppPage] is a field of
      [State]; the outside world the component acts on (remote calls issued,
      toasts shown, promises created, timers armed) is recorded in further
      fields of the same record.
    - An [async] handler is cut at its [await]s.  Each piece is a function on
      [State]; the value a remote call settles with is an argument of the
      piece that runs after it.  A piece reads React state through the render
      its closure was created in (argument [r]) and writes through the
      setters, which act on the state current when the piece runs. *)

From Stdlib Require Import String Ascii DecimalString.
From Stdlib Require Import List Bool Arith NArith ZArith Lia.
Import ListNotations.

(** ** JavaScript strings *)

Module Js.

Definition jsstring := list N.

Definition js (s : string) : jsstring :=
  map N_of_ascii (list_ascii_of_string s).

(** ECMAScript [WhiteSpace] and [LineTerminator] code points: the set that
    both [String.prototype.trim] and the regular-expression class [\s] use. *)
Definition isWhiteSpace (c : N) : bool :=
  ((9 <=? c) && (c <=? 13) ||
   (c =? 32) || (c =? 160) || (c =? 5760) ||
   ((8192 <=? c) && (c <=? 8202)) ||
   (c =? 8232) || (c =? 8233) || (c =? 8239) || (c =? 8287) ||
   (c =? 12288) || (c =? 65279))%N.

Definition space : N := 32%N.

Fixpoint trimStart (s : jsstring) : jsstring :=
  match s with
  | [] => []
  | c :: r => if isWhiteSpace c then trimStart r else s
  end.

Fixpoint trimEnd (s : jsstring) : jsstring :=
  match s with
  | [] => []
  | c :: r =>
      match trimEnd r with
      | [] => if isWhiteSpace c then [] else [c]
      | t => c :: t
      end
  end.

Definition trim (s : jsstring) : jsstring := trimEnd (trimStart s).

(** [s.replace(/\s+/g, " ")]: a left-to-right scan in which every maximal run
    of white space is matched once and replaced by one space.  [inRun] tells
    that the scan is inside a run whose replacement was already emitted. *)
Fixpoint replaceWs (inRun : bool) (s : jsstring) : jsstring :=
  match s with
  | [] => []
  | c :: r =>
      if isWhiteSpace c
      then (if inRun then replaceWs true r else space :: replaceWs true r)
      else c :: replaceWs false r
  end.

Definition replaceWhiteSpaceRuns (s : jsstring) : jsstring := replaceWs false s.

(** [s.slice(0, n)] for [0 <= n]. *)
Definition slice0 (n : nat) (s : jsstring) : jsstring := firstn n s.

(** [String(n)] for an integer [n]. *)
Definition numberToString (n : Z) : jsstring :=
  js (NilZero.string_of_int (Z.to_int n)).

(** Truthiness of a [string | null | undefined] value. *)
Definition truthy (o : option jsstring) : bool :=
  match o with
  | Some (_ :: _) => true
  | _ => false
  end.

Definition eqb (a b : jsstring) : bool :=
  if list_eq_dec N.eq_dec a b then true else false.

(** Strict equality of two [string | null] values. *)
Definition optEqb (a : option jsstring) (b : jsstring) : bool :=
  match a with
  | Some x => eqb x b
  | None => false
  end.

End Js.

Import Js.

(** ** Title derivation ([deriveConversationTitle]) *)

Definition MAX_AUTO_TITLE_LENGTH : nat := 60.

Definition deriveConversationTitle (seed : option jsstring) (fallbackIndex : Z)
  : jsstring :=
  let trimmedSeed := option_map trim seed in
  if truthy trimmedSeed then
    match trimmedSeed with
    | Some t =>
        let normalized := replaceWhiteSpaceRuns t in
        if length normalized <=? MAX_AUTO_TITLE_LENGTH
        then normalized
        else trimEnd (slice0 (MAX_AUTO_TITLE_LENGTH - 3) normalized) ++ js "..."
    | None => js "New Conversation " ++ numberToString fallbackIndex
    end
  else js "New Conversation " ++ numberToString fallbackIndex.


(** ** Data model ([src/lib/api-client.ts]) *)

(** A time stamp is either [new Date(ms).toISOString()], written [Iso ms], or
    a string sent by the server. *)
Inductive Timestamp :=
| Iso (ms : Z)
| Raw (s : jsstring).

Record Conversation := mkConversation {
  conversation_id : jsstring;
  title : jsstring;
  created_at : Timestamp;
  updated_at : Timestamp
}.

Inductive Role := User | Assistant.

Record Message := mkMessage {
  message_id : option jsstring;
  message_conversation_id : jsstring;
  role : Role;
  content : jsstring;
  timestamp : option Timestamp
}.

Record Document := mkDocument {
  document_id : jsstring;
  document_conversation_id : jsstring;
  filename : jsstring;
  file_size : option Z;
  upload_date : Timestamp;
  is_included : bool;
  storage_path : option jsstring
}.

(** The browser's [File]: the fields the component reads. *)
Record File := mkFile {
  file_name : jsstring;
  file_bytes : Z
}.

(** What a rejected promise carries: an [Error] with its message, or any
    other thrown value. *)
Inductive Thrown :=
| ErrorObject (message : jsstring)
| NotAnError.

Inductive Settled (A : Type) :=
| Fulfilled (a : A)
| Rejected (e : Thrown).
Arguments Fulfilled {A} a.
Arguments Rejected {A} e.

(** The requests the component sends, in the order it sends them. *)
Inductive RemoteCall :=
| ListConversations
| CreateConversation (title : jsstring)
| DeleteConversation (conversationId : jsstring)
| RenameConversation (conversationId title : jsstring)
| ListMessages (conversationId : jsstring)
| SendMessage (conversationId content : jsstring)
| ListDocuments (conversationId : jsstring)
| UploadDocument (conversationId : jsstring) (file : File)
| DeleteDocument (conversationId documentId : jsstring)
| ToggleInclude (conversationId documentId : jsstring) (isIncluded : bool)
| HealthProbe (path : jsstring).

Record Toast := mkToast {
  toast_title : jsstring;
  toast_description : jsstring;
  toast_destructive : bool
}.

Record PreviewDoc := mkPreviewDoc {
  preview_url : jsstring;
  preview_title : jsstring
}.

(** ** Component state ([AppPage]) *)

Record EnsureConversationResult := mkEnsured {
  conversationId : jsstring;
  created : bool
}.

(** The promise [creationPromise]: suspended at [conversationsApi.create]
    with the variables its body closes over, or settled. *)
Inductive Creation :=
| CreationPending (fallbackTitle : jsstring) (mobile : bool)
| CreationSettled (v : Settled EnsureConversationResult).

(** The frame of [runHealthCheck] suspended at [fetch]: the path being
    fetched, the paths left, and [lastErrorMessage]. *)
Record HealthRun := mkHealthRun {
  probing : jsstring;
  pathsLeft : list jsstring;
  lastErrorMessage : jsstring
}.

(** The [useState] cells ([conversations] to [backendLastError]), the values
    of the hooks [useIsMobile] and [useAuth] ([isMobile]; [user] tells whether
    a user is signed in), the [useRef] cells, and the outside world: the
    requests sent, the toasts shown, the creation promises made (a promise is
    its index), the suspended [runHealthCheck], whether the polling interval
    is installed, and the conversation ids of the armed offline-reply
    timers. *)
Record State := mkState {
  conversations : list Conversation;
  selectedConversationId : option jsstring;
  messages : list Message;
  documents : list Document;
  loading : bool;
  sendingMessage : bool;
  previewDoc : option PreviewDoc;
  previewingDocId : option jsstring;
  isConversationsSidebarOpen : bool;
  isDocumentsPanelOpen : bool;
  backendReady : bool;
  backendChecking : bool;
  backendRetryCount : Z;
  backendLastError : option jsstring;
  isMobile : bool;
  user : bool;
  isMountedRef : bool;
  healthCheckInFlightRef : bool;
  conversationCreationRef : option nat;
  hasLoadedConversationsRef : bool;
  requests : list RemoteCall;
  toasts : list Toast;
  creations : list Creation;
  healthRun : option HealthRun;
  healthInterval : bool;
  timers : list jsstring
}.

Definition setConversations (v : list Conversation) (st : State) : State :=
  {| conversations := v; selectedConversationId := selectedConversationId st;
     messages := messages st; documents := documents st; loading := loading st;
     sendingMessage := sendingMessage st; previewDoc := previewDoc st;
     previewingDocId := previewingDocId st;
     isConversationsSidebarOpen := isConversationsSidebarOpen st;
     isDocumentsPanelOpen := isDocumentsPanelOpen st; backendReady := backendReady st;
     backendChecking := backendChecking st; backendRetryCount := backendRetryCount st;
     backendLastError := backendLastError st; isMobile := isMobile st; user := user st;
     isMountedRef := isMountedRef st;
     healthCheckInFlightRef := healthCheckInFlightRef st;
     conversationCreationRef := conversationCreationRef st;
     hasLoadedConversationsRef := hasLoadedConversationsRef st;
     requests := requests st; toasts := toasts st; creations := creations st;
     healthRun := healthRun st; healthInterval := healthInterval st;
     timers := timers st |}.

Definition setSelectedConversationId (v : option jsstring) (st : State) : State :=
  {| conversations := conversations st; selectedConversationId := v;
     messages := messages st; documents := documents st; loading := loading st;
     sendingMessage := sendingMessage st; previewDoc := previewDoc st;
     previewingDocId := previewingDocId st;
     isConversationsSidebarOpen := isConversationsSidebarOpen st;
     isDocumentsPanelOpen := isDocumentsPanelOpen st; backendReady := backendReady st;
     backendChecking := backendChecking st; backendRetryCount := backendRetryCount st;
     backendLastError := backendLastError st; isMobile := isMobile st; user := user st;
     isMountedRef := isMountedRef st;
     healthCheckInFlightRef := healthCheckInFlightRef st;
     conversationCreationRef := conversationCreationRef st;
     hasLoadedConversationsRef := hasLoadedConversationsRef st;
     requests := requests st; toasts := toasts st; creations := creations st;
     healthRun := healthRun st; healthInterval := healthInterval st;
     timers := timers st |}.

Definition setMessages (v : list Message) (st : State) : State :=
  {| conversations := conversations st;
     selectedConversationId := selectedConversationId st; messages := v;
     documents := documents st; loading := loading st;
     sendingMessage := sendingMessage st; previewDoc := previewDoc st;
     previewingDocId := previewingDocId st;
     isConversationsSidebarOpen := isConversationsSidebarOpen st;
     isDocumentsPanelOpen := isDocumentsPanelOpen st; backendReady := backendReady st;
     backendChecking := backendChecking st; backendRetryCount := backendRetryCount st;
     backendLastError := backendLastError st; isMobile := isMobile st; user := user st;
     isMountedRef := isMountedRef st;
     healthCheckInFlightRef := healthCheckInFlightRef st;
     conversationCreationRef := conversationCreationRef st;
     hasLoadedConversationsRef := hasLoadedConversationsRef st;
     requests := requests st; toasts := toasts st; creations := creations st;
     healthRun := healthRun st; healthInterval := healthInterval st;
     timers := timers st |}.

Definition setDocuments (v : list Document) (st : State) : State :=
  {| conversations := conversations st;
     selectedConversationId := selectedConversationId st; messages := messages st;
     documents := v; loading := loading st; sendingMessage := sendingMessage st;
     previewDoc := previewDoc st; previewingDocId := previewingDocId st;
     isConversationsSidebarOpen := isConversationsSidebarOpen st;
     isDocumentsPanelOpen := isDocumentsPanelOpen st; backendReady := backendReady st;
     backendChecking := backendChecking st; backendRetryCount := backendRetryCount st;
     backendLastError := backendLastError st; isMobile := isMobile st; user := user st;
     isMountedRef := isMountedRef st;
     healthCheckInFlightRef := healthCheckInFlightRef st;
     conversationCreationRef := conversationCreationRef st;
     hasLoadedConversationsRef := hasLoadedConversationsRef st;
     requests := requests st; toasts := toasts st; creations := creations st;
     healthRun := healthRun st; healthInterval := healthInterval st;
     timers := timers st |}.

Definition setLoading (v : bool) (st : State) : State :=
  {| conversations := conversations st;
     selectedConversationId := selectedConversationId st; messages := messages st;
     documents := documents st; loading := v; sendingMessage := sendingMessage st;
     previewDoc := previewDoc st; previewingDocId := previewingDocId st;
     isConversationsSidebarOpen := isConversationsSidebarOpen st;
     isDocumentsPanelOpen := isDocumentsPanelOpen st; backendReady := backendReady st;
     backendChecking := backendChecking st; backendRetryCount := backendRetryCount st;
     backendLastError := backendLastError st; isMobile := isMobile st; user := user st;
     isMountedRef := isMountedRef st;
     healthCheckInFlightRef := healthCheckInFlightRef st;
     conversationCreationRef := conversationCreationRef st;
     hasLoadedConversationsRef := hasLoadedConversationsRef st;
     requests := requests st; toasts := toasts st; creations := creations st;
     healthRun := healthRun st; healthInterval := healthInterval st;
     timers := timers st |}.

Definition setSendingMessage (v : bool) (st : State) : State :=
  {| conversations := conversations st;
     selectedConversationId := selectedConversationId st; messages := messages st;
     documents := documents st; loading := loading st; sendingMessage := v;
     previewDoc := previewDoc st; previewingDocId := previewingDocId st;
     isConversationsSidebarOpen := isConversationsSidebarOpen st;
     isDocumentsPanelOpen := isDocumentsPanelOpen st; backendReady := backendReady st;
     backendChecking := backendChecking st; backendRetryCount := backendRetryCount st;
     backendLastError := backendLastError st; isMobile := isMobile st; user := user st;
     isMountedRef := isMountedRef st;
     healthCheckInFlightRef := healthCheckInFlightRef st;
     conversationCreationRef := conversationCreationRef st;
     hasLoadedConversationsRef := hasLoadedConversationsRef st;
     requests := requests st; toasts := toasts st; creations := creations st;
     healthRun := healthRun st; healthInterval := healthInterval st;
     timers := timers st |}.

Definition setPreviewDoc (v : option PreviewDoc) (st : State) : State :=
  {| conversations := conversations st;
     selectedConversationId := selectedConversationId st; messages := messages st;
     documents := documents st; loading := loading st;
     sendingMessage := sendingMessage st; previewDoc := v;
     previewingDocId := previewingDocId st;
     isConversationsSidebarOpen := isConversationsSidebarOpen st;
     isDocumentsPanelOpen := isDocumentsPanelOpen st; backendReady := backendReady st;
     backendChecking := backendChecking st; backendRetryCount := backendRetryCount st;
     backendLastError := backendLastError st; isMobile := isMobile st; user := user st;
     isMountedRef := isMountedRef st;
     healthCheckInFlightRef := healthCheckInFlightRef st;
     conversationCreationRef := conversationCreationRef st;
     hasLoadedConversationsRef := hasLoadedConversationsRef st;
     requests := requests st; toasts := toasts st; creations := creations st;
     healthRun := healthRun st; healthInterval := healthInterval st;
     timers := timers st |}.

Definition setPreviewingDocId (v : option jsstring) (st : State) : State :=
  {| conversations := conversations st;
     selectedConversationId := selectedConversationId st; messages := messages st;
     documents := documents st; loading := loading st;
     sendingMessage := sendingMessage st; previewDoc := previewDoc st;
     previewingDocId := v; isConversationsSidebarOpen := isConversationsSidebarOpen st;
     isDocumentsPanelOpen := isDocumentsPanelOpen st; backendReady := backendReady st;
     backendChecking := backendChecking st; backendRetryCount := backendRetryCount st;
     backendLastError := backendLastError st; isMobile := isMobile st; user := user st;
     isMountedRef := isMountedRef st;
     healthCheckInFlightRef := healthCheckInFlightRef st;
     conversationCreationRef := conversationCreationRef st;
     hasLoadedConversationsRef := hasLoadedConversationsRef st;
     requests := requests st; toasts := toasts st; creations := creations st;
     healthRun := healthRun st; healthInterval := healthInterval st;
     timers := timers st |}.

Definition setIsConversationsSidebarOpen (v : bool) (st : State) : State :=
  {| conversations := conversations st;
     selectedConversationId := selectedConversationId st; messages := messages st;
     documents := documents st; loading := loading st;
     sendingMessage := sendingMessage st; previewDoc := previewDoc st;
     previewingDocId := previewingDocId st; isConversationsSidebarOpen := v;
     isDocumentsPanelOpen := isDocumentsPanelOpen st; backendReady := backendReady st;
     backendChecking := backendChecking st; backendRetryCount := backendRetryCount st;
     backendLastError := backendLastError st; isMobile := isMobile st; user := user st;
     isMountedRef := isMountedRef st;
     healthCheckInFlightRef := healthCheckInFlightRef st;
     conversationCreationRef := conversationCreationRef st;
     hasLoadedConversationsRef := hasLoadedConversationsRef st;
     requests := requests st; toasts := toasts st; creations := creations st;
     healthRun := healthRun st; healthInterval := healthInterval st;
     timers := timers st |}.

Definition setIsDocumentsPanelOpen (v : bool) (st : State) : State :=
  {| conversations := conversations st;
     selectedConversationId := selectedConversationId st; messages := messages st;
     documents := documents st; loading := loading st;
     sendingMessage := sendingMessage st; previewDoc := previewDoc st;
     previewingDocId := previewingDocId st;
     isConversationsSidebarOpen := isConversationsSidebarOpen st;
     isDocumentsPanelOpen := v; backendReady := backendReady st;
     backendChecking := backendChecking st; backendRetryCount := backendRetryCount st;
     backendLastError := backendLastError st; isMobile := isMobile st; user := user st;
     isMountedRef := isMountedRef st;
     healthCheckInFlightRef := healthCheckInFlightRef st;
     conversationCreationRef := conversationCreationRef st;
     hasLoadedConversationsRef := hasLoadedConversationsRef st;
     requests := requests st; toasts := toasts st; creations := creations st;
     healthRun := healthRun st; healthInterval := healthInterval st;
     timers := timers st |}.

Definition setBackendReady (v : bool) (st : State) : State :=
  {| conversations := conversations st;
     selectedConversationId := selectedConversationId st; messages := messages st;
     documents := documents st; loading := loading st;
     sendingMessage := sendingMessage st; previewDoc := previewDoc st;
     previewingDocId := previewingDocId st;
     isConversationsSidebarOpen := isConversationsSidebarOpen st;
     isDocumentsPanelOpen := isDocumentsPanelOpen st; backendReady := v;
     backendChecking := backendChecking st; backendRetryCount := backendRetryCount st;
     backendLastError := backendLastError st; isMobile := isMobile st; user := user st;
     isMountedRef := isMountedRef st;
     healthCheckInFlightRef := healthCheckInFlightRef st;
     conversationCreationRef := conversationCreationRef st;
     hasLoadedConversationsRef := hasLoadedConversationsRef st;
     requests := requests st; toasts := toasts st; creations := creations st;
     healthRun := healthRun st; healthInterval := healthInterval st;
     timers := timers st |}.

Definition setBackendChecking (v : bool) (st : State) : State :=
  {| conversations := conversations st;
     selectedConversationId := selectedConversationId st; messages := messages st;
     documents := documents st; loading := loading st;
     sendingMessage := sendingMessage st; previewDoc := previewDoc st;
     previewingDocId := previewingDocId st;
     isConversationsSidebarOpen := isConversationsSidebarOpen st;
     isDocumentsPanelOpen := isDocumentsPanelOpen st; backendReady := backendReady st;
     backendChecking := v; backendRetryCount := backendRetryCount st;
     backendLastError := backendLastError st; isMobile := isMobile st; user := user st;
     isMountedRef := isMountedRef st;
     healthCheckInFlightRef := healthCheckInFlightRef st;
     conversationCreationRef := conversationCreationRef st;
     hasLoadedConversationsRef := hasLoadedConversationsRef st;
     requests := requests st; toasts := toasts st; creations := creations st;
     healthRun := healthRun st; healthInterval := healthInterval st;
     timers := timers st |}.

Definition setBackendRetryCount (v : Z) (st : State) : State :=
  {| conversations := conversations st;
     selectedConversationId := selectedConversationId st; messages := messages st;
     documents := documents st; loading := loading st;
     sendingMessage := sendingMessage st; previewDoc := previewDoc st;
     previewingDocId := previewingDocId st;
     isConversationsSidebarOpen := isConversationsSidebarOpen st;
     isDocumentsPanelOpen := isDocumentsPanelOpen st; backendReady := backendReady st;
     backendChecking := backendChecking st; backendRetryCount := v;
     backendLastError := backendLastError st; isMobile := isMobile st; user := user st;
     isMountedRef := isMountedRef st;
     healthCheckInFlightRef := healthCheckInFlightRef st;
     conversationCreationRef := conversationCreationRef st;
     hasLoadedConversationsRef := hasLoadedConversationsRef st;
     requests := requests st; toasts := toasts st; creations := creations st;
     healthRun := healthRun st; healthInterval := healthInterval st;
     timers := timers st |}.

Definition setBackendLastError (v : option jsstring) (st : State) : State :=
  {| conversations := conversations st;
     selectedConversationId := selectedConversationId st; messages := messages st;
     documents := documents st; loading := loading st;
     sendingMessage := sendingMessage st; previewDoc := previewDoc st;
     previewingDocId := previewingDocId st;
     isConversationsSidebarOpen := isConversationsSidebarOpen st;
     isDocumentsPanelOpen := isDocumentsPanelOpen st; backendReady := backendReady st;
     backendChecking := backendChecking st; backendRetryCount := backendRetryCount st;
     backendLastError := v; isMobile := isMobile st; user := user st;
     isMountedRef := isMountedRef st;
     healthCheckInFlightRef := healthCheckInFlightRef st;
     conversationCreationRef := conversationCreationRef st;
     hasLoadedConversationsRef := hasLoadedConversationsRef st;
     requests := requests st; toasts := toasts st; creations := creations st;
     healthRun := healthRun st; healthInterval := healthInterval st;
     timers := timers st |}.

Definition withIsMobile (v : bool) (st : State) : State :=
  {| conversations := conversations st;
     selectedConversationId := selectedConversationId st; messages := messages st;
     documents := documents st; loading := loading st;
     sendingMessage := sendingMessage st; previewDoc := previewDoc st;
     previewingDocId := previewingDocId st;
     isConversationsSidebarOpen := isConversationsSidebarOpen st;
     isDocumentsPanelOpen := isDocumentsPanelOpen st; backendReady := backendReady st;
     backendChecking := backendChecking st; backendRetryCount := backendRetryCount st;
     backendLastError := backendLastError st; isMobile := v; user := user st;
     isMountedRef := isMountedRef st;
     healthCheckInFlightRef := healthCheckInFlightRef st;
     conversationCreationRef := conversationCreationRef st;
     hasLoadedConversationsRef := hasLoadedConversationsRef st;
     requests := requests st; toasts := toasts st; creations := creations st;
     healthRun := healthRun st; healthInterval := healthInterval st;
     timers := timers st |}.

Definition withUser (v : bool) (st : State) : State :=
  {| conversations := conversations st;
     selectedConversationId := selectedConversationId st; messages := messages st;
     documents := documents st; loading := loading st;
     sendingMessage := sendingMessage st; previewDoc := previewDoc st;
     previewingDocId := previewingDocId st;
     isConversationsSidebarOpen := isConversationsSidebarOpen st;
     isDocumentsPanelOpen := isDocumentsPanelOpen st; backendReady := backendReady st;
     backendChecking := backendChecking st; backendRetryCount := backendRetryCount st;
     backendLastError := backendLastError st; isMobile := isMobile st; user := v;
     isMountedRef := isMountedRef st;
     healthCheckInFlightRef := healthCheckInFlightRef st;
     conversationCreationRef := conversationCreationRef st;
     hasLoadedConversationsRef := hasLoadedConversationsRef st;
     requests := requests st; toasts := toasts st; creations := creations st;
     healthRun := healthRun st; healthInterval := healthInterval st;
     timers := timers st |}.

Definition isMountedRef_set (v : bool) (st : State) : State :=
  {| conversations := conversations st;
     selectedConversationId := selectedConversationId st; messages := messages st;
     documents := documents st; loading := loading st;
     sendingMessage := sendingMessage st; previewDoc := previewDoc st;
     previewingDocId := previewingDocId st;
     isConversationsSidebarOpen := isConversationsSidebarOpen st;
     isDocumentsPanelOpen := isDocumentsPanelOpen st; backendReady := backendReady st;
     backendChecking := backendChecking st; backendRetryCount := backendRetryCount st;
     backendLastError := backendLastError st; isMobile := isMobile st; user := user st;
     isMountedRef := v; healthCheckInFlightRef := healthCheckInFlightRef st;
     conversationCreationRef := conversationCreationRef st;
     hasLoadedConversationsRef := hasLoadedConversationsRef st;
     requests := requests st; toasts := toasts st; creations := creations st;
     healthRun := healthRun st; healthInterval := healthInterval st;
     timers := timers st |}.

Definition healthCheckInFlightRef_set (v : bool) (st : State) : State :=
  {| conversations := conversations st;
     selectedConversationId := selectedConversationId st; messages := messages st;
     documents := documents st; loading := loading st;
     sendingMessage := sendingMessage st; previewDoc := previewDoc st;
     previewingDocId := previewingDocId st;
     isConversationsSidebarOpen := isConversationsSidebarOpen st;
     isDocumentsPanelOpen := isDocumentsPanelOpen st; backendReady := backendReady st;
     backendChecking := backendChecking st; backendRetryCount := backendRetryCount st;
     backendLastError := backendLastError st; isMobile := isMobile st; user := user st;
     isMountedRef := isMountedRef st; healthCheckInFlightRef := v;
     conversationCreationRef := conversationCreationRef st;
     hasLoadedConversationsRef := hasLoadedConversationsRef st;
     requests := requests st; toasts := toasts st; creations := creations st;
     healthRun := healthRun st; healthInterval := healthInterval st;
     timers := timers st |}.

Definition conversationCreationRef_set (v : option nat) (st : State) : State :=
  {| conversations := conversations st;
     selectedConversationId := selectedConversationId st; messages := messages st;
     documents := documents st; loading := loading st;
     sendingMessage := sendingMessage st; previewDoc := previewDoc st;
     previewingDocId := previewingDocId st;
     isConversationsSidebarOpen := isConversationsSidebarOpen st;
     isDocumentsPanelOpen := isDocumentsPanelOpen st; backendReady := backendReady st;
     backendChecking := backendChecking st; backendRetryCount := backendRetryCount st;
     backendLastError := backendLastError st; isMobile := isMobile st; user := user st;
     isMountedRef := isMountedRef st;
     healthCheckInFlightRef := healthCheckInFlightRef st; conversationCreationRef := v;
     hasLoadedConversationsRef := hasLoadedConversationsRef st;
     requests := requests st; toasts := toasts st; creations := creations st;
     healthRun := healthRun st; healthInterval := healthInterval st;
     timers := timers st |}.

Definition hasLoadedConversationsRef_set (v : bool) (st : State) : State :=
  {| conversations := conversations st;
     selectedConversationId := selectedConversationId st; messages := messages st;
     documents := documents st; loading := loading st;
     sendingMessage := sendingMessage st; previewDoc := previewDoc st;
     previewingDocId := previewingDocId st;
     isConversationsSidebarOpen := isConversationsSidebarOpen st;
     isDocumentsPanelOpen := isDocumentsPanelOpen st; backendReady := backendReady st;
     backendChecking := backendChecking st; backendRetryCount := backendRetryCount st;
     backendLastError := backendLastError st; isMobile := isMobile st; user := user st;
     isMountedRef := isMountedRef st;
     healthCheckInFlightRef := healthCheckInFlightRef st;
     conversationCreationRef := conversationCreationRef st;
     hasLoadedConversationsRef := v; requests := requests st; toasts := toasts st;
     creations := creations st; healthRun := healthRun st;
     healthInterval := healthInterval st; timers := timers st |}.

Definition withRequests (v : list RemoteCall) (st : State) : State :=
  {| conversations := conversations st;
     selectedConversationId := selectedConversationId st; messages := messages st;
     documents := documents st; loading := loading st;
     sendingMessage := sendingMessage st; previewDoc := previewDoc st;
     previewingDocId := previewingDocId st;
     isConversationsSidebarOpen := isConversationsSidebarOpen st;
     isDocumentsPanelOpen := isDocumentsPanelOpen st; backendReady := backendReady st;
     backendChecking := backendChecking st; backendRetryCount := backendRetryCount st;
     backendLastError := backendLastError st; isMobile := isMobile st; user := user st;
     isMountedRef := isMountedRef st;
     healthCheckInFlightRef := healthCheckInFlightRef st;
     conversationCreationRef := conversationCreationRef st;
     hasLoadedConversationsRef := hasLoadedConversationsRef st; requests := v;
     toasts := toasts st; creations := creations st; healthRun := healthRun st;
     healthInterval := healthInterval st; timers := timers st |}.

Definition withToasts (v : list Toast) (st : State) : State :=
  {| conversations := conversations st;
     selectedConversationId := selectedConversationId st; messages := messages st;
     documents := documents st; loading := loading st;
     sendingMessage := sendingMessage st; previewDoc := previewDoc st;
     previewingDocId := previewingDocId st;
     isConversationsSidebarOpen := isConversationsSidebarOpen st;
     isDocumentsPanelOpen := isDocumentsPanelOpen st; backendReady := backendReady st;
     backendChecking := backendChecking st; backendRetryCount := backendRetryCount st;
     backendLastError := backendLastError st; isMobile := isMobile st; user := user st;
     isMountedRef := isMountedRef st;
     healthCheckInFlightRef := healthCheckInFlightRef st;
     conversationCreationRef := conversationCreationRef st;
     hasLoadedConversationsRef := hasLoadedConversationsRef st;
     requests := requests st; toasts := v; creations := creations st;
     healthRun := healthRun st; healthInterval := healthInterval st;
     timers := timers st |}.

Definition withCreations (v : list Creation) (st : State) : State :=
  {| conversations := conversations st;
     selectedConversationId := selectedConversationId st; messages := messages st;
     documents := documents st; loading := loading st;
     sendingMessage := sendingMessage st; previewDoc := previewDoc st;
     previewingDocId := previewingDocId st;
     isConversationsSidebarOpen := isConversationsSidebarOpen st;
     isDocumentsPanelOpen := isDocumentsPanelOpen st; backendReady := backendReady st;
     backendChecking := backendChecking st; backendRetryCount := backendRetryCount st;
     backendLastError := backendLastError st; isMobile := isMobile st; user := user st;
     isMountedRef := isMountedRef st;
     healthCheckInFlightRef := healthCheckInFlightRef st;
     conversationCreationRef := conversationCreationRef st;
     hasLoadedConversationsRef := hasLoadedConversationsRef st;
     requests := requests st; toasts := toasts st; creations := v;
     healthRun := healthRun st; healthInterval := healthInterval st;
     timers := timers st |}.

Definition withHealthRun (v : option HealthRun) (st : State) : State :=
  {| conversations := conversations st;
     selectedConversationId := selectedConversationId st; messages := messages st;
     documents := documents st; loading := loading st;
     sendingMessage := sendingMessage st; previewDoc := previewDoc st;
     previewingDocId := previewingDocId st;
     isConversationsSidebarOpen := isConversationsSidebarOpen st;
     isDocumentsPanelOpen := isDocumentsPanelOpen st; backendReady := backendReady st;
     backendChecking := backendChecking st; backendRetryCount := backendRetryCount st;
     backendLastError := backendLastError st; isMobile := isMobile st; user := user st;
     isMountedRef := isMountedRef st;
     healthCheckInFlightRef := healthCheckInFlightRef st;
     conversationCreationRef := conversationCreationRef st;
     hasLoadedConversationsRef := hasLoadedConversationsRef st;
     requests := requests st; toasts := toasts st; creations := creations st;
     healthRun := v; healthInterval := healthInterval st; timers := timers st |}.

Definition withHealthInterval (v : bool) (st : State) : State :=
  {| conversations := conversations st;
     selectedConversationId := selectedConversationId st; messages := messages st;
     documents := documents st; loading := loading st;
     sendingMessage := sendingMessage st; previewDoc := previewDoc st;
     previewingDocId := previewingDocId st;
     isConversationsSidebarOpen := isConversationsSidebarOpen st;
     isDocumentsPanelOpen := isDocumentsPanelOpen st; backendReady := backendReady st;
     backendChecking := backendChecking st; backendRetryCount := backendRetryCount st;
     backendLastError := backendLastError st; isMobile := isMobile st; user := user st;
     isMountedRef := isMountedRef st;
     healthCheckInFlightRef := healthCheckInFlightRef st;
     conversationCreationRef := conversationCreationRef st;
     hasLoadedConversationsRef := hasLoadedConversationsRef st;
     requests := requests st; toasts := toasts st; creations := creations st;
     healthRun := healthRun st; healthInterval := v; timers := timers st |}.

Definition withTimers (v : list jsstring) (st : State) : State :=
  {| conversations := conversations st;
     selectedConversationId := selectedConversationId st; messages := messages st;
     documents := documents st; loading := loading st;
     sendingMessage := sendingMessage st; previewDoc := previewDoc st;
     previewingDocId := previewingDocId st;
     isConversationsSidebarOpen := isConversationsSidebarOpen st;
     isDocumentsPanelOpen := isDocumentsPanelOpen st; backendReady := backendReady st;
     backendChecking := backendChecking st; backendRetryCount := backendRetryCount st;
     backendLastError := backendLastError st; isMobile := isMobile st; user := user st;
     isMountedRef := isMountedRef st;
     healthCheckInFlightRef := healthCheckInFlightRef st;
     conversationCreationRef := conversationCreationRef st;
     hasLoadedConversationsRef := hasLoadedConversationsRef st;
     requests := requests st; toasts := toasts st; creations := creations st;
     healthRun := healthRun st; healthInterval := healthInterval st; timers := v |}.

(** ** Effects on the outside world *)

Definition issue (c : RemoteCall) (st : State) : State :=
  withRequests (requests st ++ [c]) st.

Definition toast (t : Toast) (st : State) : State :=
  withToasts (toasts st ++ [t]) st.

Definition errorToast (description : string) : Toast :=
  mkToast (js "Error") (js description) true.

Definition plainToast (title description : string) : Toast :=
  mkToast (js title) (js description) false.

Definition errorMessage (error : Thrown) (otherwise : string) : jsstring :=
  match error with
  | ErrorObject m => m
  | NotAnError => js otherwise
  end.

Fixpoint setNth {A : Type} (n : nat) (x : A) (l : list A) : list A :=
  match l, n with
  | [], _ => []
  | _ :: t, O => x :: t
  | h :: t, S k => h :: setNth k x t
  end.

Fixpoint removeNth {A : Type} (n : nat) (l : list A) : list A :=
  match l, n with
  | [], _ => []
  | _ :: t, O => t
  | h :: t, S k => h :: removeNth k t
  end.

(** ** SessionMediator ([ensureActiveConversation]) *)

(** What the caller of [ensureActiveConversation] awaits: a value returned at
    once, or the cached creation promise. *)
Inductive Awaited :=
| Returned (res : EnsureConversationResult)
| Pending (pendingCreation : nat).

(** From the call to [await pendingCreation].  When no creation is cached the
    body of [creationPromise] runs up to [conversationsApi.create], so the
    request leaves here. *)
Definition ensureActiveConversation (r : State) (seedTitle : option jsstring)
  (st : State) : Awaited * State :=
  match selectedConversationId r with
  | Some ((_ :: _) as selected) => (Returned (mkEnsured selected false), st)
  | _ =>
      match conversationCreationRef st with
      | Some pendingCreation => (Pending pendingCreation, st)
      | None =>
          let fallbackTitle :=
            deriveConversationTitle seedTitle
              (Z.of_nat (length (conversations r)) + 1)%Z in
          let creationPromise := length (creations st) in
          let st := issue (CreateConversation fallbackTitle) st in
          let st :=
            withCreations
              (creations st ++ [CreationPending fallbackTitle (isMobile r)]) st in
          let st := conversationCreationRef_set (Some creationPromise) st in
          (Pending creationPromise, st)
      end
  end.

Definition settle (p : nat) (v : Settled EnsureConversationResult) (st : State)
  : State :=
  withCreations (setNth p (CreationSettled v) (creations st)) st.

(** The rest of the body of [creationPromise], run when
    [conversationsApi.create] settles with [response]. *)
Definition creationSettled (p : nat) (response : Settled jsstring) (now : Z)
  (st : State) : State :=
  match nth_error (creations st) p with
  | Some (CreationPending fallbackTitle mobile) =>
      match response with
      | Fulfilled conversation_id =>
          let newConversation :=
            mkConversation conversation_id fallbackTitle (Iso now) (Iso now) in
          let st := setConversations (newConversation :: conversations st) st in
          let st := setSelectedConversationId (Some conversation_id) st in
          let st := setMessages [] st in
          let st := setDocuments [] st in
          let st := if mobile then setIsConversationsSidebarOpen false st else st in
          settle p (Fulfilled (mkEnsured conversation_id true)) st
      | Rejected e => settle p (Rejected e) st
      end
  | _ => st
  end.

(** The caller's [try { return await pendingCreation } finally { ... }], run
    once the promise has settled; [None] while it has not. *)
Definition ensureActiveConversation_resumed (pendingCreation : nat) (st : State)
  : option (Settled EnsureConversationResult * State) :=
  match nth_error (creations st) pendingCreation with
  | Some (CreationSettled v) =>
      let st :=
        match conversationCreationRef st with
        | Some current =>
            if current =? pendingCreation
            then conversationCreationRef_set None st
            else st
        | None => st
        end in
      Some (v, st)
  | _ => None
  end.

(** Calls made one after the other while nothing settles: each caller comes
    with the render its closure belongs to and with its seed. *)
Fixpoint ensureAll (callers : list (State * option jsstring)) (st : State)
  : list Awaited * State :=
  match callers with
  | [] => ([], st)
  | (r, seedTitle) :: rest =>
      let '(a, st) := ensureActiveConversation r seedTitle st in
      let '(others, st) := ensureAll rest st in
      (a :: others, st)
  end.

(** [n] callers that await the promise [p] resume one after the other. *)
Fixpoint resumeAll (n : nat) (p : nat) (st : State)
  : list (option (Settled EnsureConversationResult)) * State :=
  match n with
  | O => ([], st)
  | S m =>
      match ensureActiveConversation_resumed p st with
      | Some (v, st) => let '(vs, st) := resumeAll m p st in (Some v :: vs, st)
      | None => let '(vs, st) := resumeAll m p st in (None :: vs, st)
      end
  end.

(** What [creationPromise] settles with, given the response to the request. *)
Definition creationResult (response : Settled jsstring)
  : Settled EnsureConversationResult :=
  match response with
  | Fulfilled conversation_id => Fulfilled (mkEnsured conversation_id true)
  | Rejected e => Rejected e
  end.

(** ** ReadinessMonitor ([runHealthCheck] and its polling effect) *)

Definition healthPaths : list jsstring := [js "/health"; js "/"].

(** The code after the [for] loop, [finally] block included.  The outer
    [catch] is dead code: the inner [try] catches whatever [fetch] throws. *)
Definition runHealthCheck_finish (reachable : bool) (lastErrorMessage : jsstring)
  (st : State) : State :=
  let st := withHealthRun None st in
  if reachable && isMountedRef st then
    let st := setBackendReady true st in
    let st := setBackendLastError None st in
    let st := setBackendRetryCount 0%Z st in
    let st := if isMountedRef st then setBackendChecking false st else st in
    healthCheckInFlightRef_set false st
  else
    let st := if isMountedRef st then setBackendChecking false st else st in
    let st := healthCheckInFlightRef_set false st in
    if isMountedRef st && negb reachable then
      let st := setBackendLastError (Some lastErrorMessage) st in
      setBackendRetryCount (backendRetryCount st + 1)%Z st
    else st.

(** One turn of [for (const path of healthPaths)]: send the probe for the
    next path and suspend, or leave the loop. *)
Definition runHealthCheck_loop (paths : list jsstring) (lastErrorMessage : jsstring)
  (st : State) : State :=
  match paths with
  | path :: rest =>
      let st := issue (HealthProbe path) st in
      withHealthRun (Some (mkHealthRun path rest lastErrorMessage)) st
  | [] => runHealthCheck_finish false lastErrorMessage st
  end.

Definition runHealthCheck (r : State) (st : State) : State :=
  if backendReady r || healthCheckInFlightRef st || negb (isMountedRef st)
  then st
  else
    let st := healthCheckInFlightRef_set true st in
    let st := if isMountedRef st then setBackendChecking true st else st in
    runHealthCheck_loop healthPaths (js "Unable to reach backend") st.

(** [fetch] settles: with a response of the given status, or by throwing. *)
Definition runHealthCheck_fetched (response : Settled Z) (st : State) : State :=
  match healthRun st with
  | None => st
  | Some run =>
      match response with
      | Fulfilled status =>
          if (status <? 500)%Z
          then runHealthCheck_finish true (lastErrorMessage run) st
          else
            runHealthCheck_loop (pathsLeft run)
              (js "Backend responded with status " ++ numberToString status
                 ++ js " at " ++ probing run) st
      | Rejected error =>
          runHealthCheck_loop (pathsLeft run)
            (errorMessage error "Unable to reach backend") st
      end
  end.

(** The effect on [[backendReady, runHealthCheck]] and its clean-up. *)
Definition healthEffect (st : State) : State :=
  if backendReady st then st
  else withHealthInterval true (runHealthCheck st st).

Definition healthEffect_cleanup (st : State) : State :=
  withHealthInterval false st.

(** The interval fires.  Its callback is the [runHealthCheck] of the render
    in which the effect installed it, where [backendReady] was false. *)
Definition intervalTick (st : State) : State :=
  if healthInterval st
  then runHealthCheck (setBackendReady false st) st
  else st.

(** The button "Check again now": rendered while [!backendReady], disabled
    while [backendChecking]. *)
Definition clickCheckAgain (st : State) : State :=
  if backendReady st || backendChecking st then st else runHealthCheck st st.

(** ** List loads *)

Definition loadConversations (r : State) (st : State) : bool * State :=
  let shouldShowInitialSpinner :=
    (length (conversations r) =? 0) && negb (hasLoadedConversationsRef st) in
  let st := if shouldShowInitialSpinner then setLoading true st else st in
  (shouldShowInitialSpinner, issue ListConversations st).

Definition loadConversations_settled (r : State) (shouldShowInitialSpinner : bool)
  (response : Settled (list Conversation)) (now now' : Z) (st : State) : State :=
  let st :=
    match response with
    | Fulfilled loadedConversations =>
        let st := setConversations loadedConversations st in
        match loadedConversations with
        | first :: _ =>
            if negb (truthy (selectedConversationId r))
            then setSelectedConversationId (Some (conversation_id first)) st
            else st
        | [] => st
        end
    | Rejected _ =>
        let st :=
          toast (errorToast "Failed to load conversations. Using offline mode.") st in
        let mockConversations :=
          [mkConversation (js "1") (js "Getting Started") (Iso now) (Iso now')] in
        let st := setConversations mockConversations st in
        match mockConversations with
        | first :: _ =>
            if negb (truthy (selectedConversationId r))
            then setSelectedConversationId (Some (conversation_id first)) st
            else st
        | [] => st
        end
    end in
  let st := hasLoadedConversationsRef_set true st in
  if shouldShowInitialSpinner then setLoading false st else st.

Definition loadMessages (conversationId : jsstring) (st : State) : State :=
  issue (ListMessages conversationId) st.

Definition loadMessages_settled (conversationId : jsstring)
  (response : Settled (list Message)) (now : Z) (st : State) : State :=
  match response with
  | Fulfilled loadedMessages => setMessages loadedMessages st
  | Rejected _ =>
      let st := toast (errorToast "Failed to load messages. Using offline mode.") st in
      let mockMessages :=
        [mkMessage (Some (js "1")) conversationId Assistant
           (js "Hello! I'm your AI assistant. Upload some documents and ask me questions about them.")
           (Some (Iso now))] in
      setMessages mockMessages st
  end.

Definition loadDocuments (conversationId : jsstring) (st : State) : State :=
  issue (ListDocuments conversationId) st.

Definition loadDocuments_settled (response : Settled (list Document)) (st : State)
  : State :=
  match response with
  | Fulfilled loadedDocuments => setDocuments loadedDocuments st
  | Rejected _ =>
      let st := toast (errorToast "Failed to load documents. Using offline mode.") st in
      setDocuments [] st
  end.

(** The effect on [[selectedConversationId]]. *)
Definition selectionEffect (st : State) : State :=
  match selectedConversationId st with
  | Some ((_ :: _) as selected) => loadDocuments selected (loadMessages selected st)
  | _ => st
  end.

(** The effect on [[user, backendReady]]. *)
Definition conversationsEffect (st : State) : State :=
  if user st && backendReady st then snd (loadConversations st st) else st.

(** ** Conversation handlers *)

Definition newConversationTitle (r : State) : jsstring :=
  js "New Conversation " ++ numberToString (Z.of_nat (length (conversations r)) + 1)%Z.

Definition handleCreateConversation (r : State) (st : State) : State :=
  issue (CreateConversation (newConversationTitle r)) st.

(** [now] is read on success; [nowId], [now'] and [now''] in the [catch]. *)
Definition handleCreateConversation_settled (r : State) (response : Settled jsstring)
  (now nowId now' now'' : Z) (st : State) : State :=
  match response with
  | Fulfilled conversation_id =>
      let newConversation :=
        mkConversation conversation_id (newConversationTitle r) (Iso now) (Iso now) in
      let st := setConversations (newConversation :: conversations st) st in
      let st := setSelectedConversationId (Some conversation_id) st in
      let st := if isMobile r then setIsConversationsSidebarOpen false st else st in
      toast (plainToast "Success" "Conversation created successfully") st
  | Rejected _ =>
      let st :=
        toast (errorToast "Failed to create conversation. Using offline mode.") st in
      let newConversation :=
        mkConversation (numberToString nowId) (newConversationTitle r)
          (Iso now') (Iso now'') in
      let st := setConversations (newConversation :: conversations r) st in
      setSelectedConversationId (Some (conversation_id newConversation)) st
  end.

Definition handleSelectConversation (r : State) (conversationId : jsstring)
  (st : State) : State :=
  let st := setSelectedConversationId (Some conversationId) st in
  if isMobile r then setIsConversationsSidebarOpen false st else st.

Definition handleDeleteConversation (conversationId : jsstring) (st : State) : State :=
  issue (DeleteConversation conversationId) st.

(** [(c) => c.conversation_id !== conversationId] *)
Definition keeps (conversationId : jsstring) (c : Conversation) : bool :=
  negb (eqb (conversation_id c) conversationId).

(** The updater passed to [setConversations] reads [prev], the list current
    when it runs, and [selectedConversationId], the value of the render the
    handler was created in.  The first component of the result is how the
    promise returned by the handler settles: the [catch] block does not throw. *)
Definition handleDeleteConversation_settled (r : State) (conversationId : jsstring)
  (response : Settled unit) (st : State) : Settled unit * State :=
  match response with
  | Fulfilled _ =>
      let remaining := filter (keeps conversationId) (conversations st) in
      let st :=
        if optEqb (selectedConversationId r) conversationId then
          let nextSelected :=
            match remaining with
            | first :: _ => Some (conversation_id first)
            | [] => None
            end in
          let st := setSelectedConversationId nextSelected st in
          let st := setMessages [] st in
          let st := setDocuments [] st in
          let st := setPreviewDoc None st in
          setPreviewingDocId None st
        else st in
      let st := setConversations remaining st in
      (Fulfilled tt,
       toast (plainToast "Success" "Conversation deleted successfully") st)
  | Rejected _ =>
      (Fulfilled tt, toast (errorToast "Failed to delete conversation") st)
  end.

Definition handleRenameConversation (conversationId title : jsstring) (st : State)
  : State :=
  issue (RenameConversation conversationId title) st.

Definition renamed (conversationId title : jsstring) (updatedAt : Timestamp)
  (conversation : Conversation) : Conversation :=
  if eqb (conversation_id conversation) conversationId
  then mkConversation (conversation_id conversation) title
         (created_at conversation) updatedAt
  else conversation.

(** The first component is how the promise returned by the handler settles:
    the [catch] block ends in [throw error]. *)
Definition handleRenameConversation_settled (conversationId title : jsstring)
  (response : Settled unit) (now : Z) (st : State) : Settled unit * State :=
  match response with
  | Fulfilled _ =>
      let updatedAt := Iso now in
      let st :=
        setConversations
          (map (renamed conversationId title updatedAt) (conversations st)) st in
      (Fulfilled tt,
       toast (plainToast "Conversation renamed" "Title updated successfully") st)
  | Rejected error =>
      (Rejected error, toast (errorToast "Failed to rename conversation") st)
  end.

(** ** The rename dialog ([ConversationsSidebar]) *)

Record Sidebar := mkSidebar {
  renameDialogOpen : bool;
  conversationToRename : option jsstring;
  renameValue : jsstring;
  renaming : bool
}.

Definition setRenaming (v : bool) (sb : Sidebar) : Sidebar :=
  mkSidebar (renameDialogOpen sb) (conversationToRename sb) (renameValue sb) v.

(** From the click to [await onRenameConversation(...)]; the first component
    tells whether the handler got past its guard. *)
Definition handleConfirmRename (sb : Sidebar) (st : State)
  : bool * Sidebar * State :=
  match conversationToRename sb, trim (renameValue sb) with
  | Some ((_ :: _) as id), (_ :: _) as trimmed =>
      (true, setRenaming true sb, handleRenameConversation id trimmed st)
  | _, _ => (false, sb, st)
  end.

Definition handleConfirmRename_settled (result : Settled unit) (sb : Sidebar)
  : Sidebar :=
  let sb :=
    match result with
    | Fulfilled _ => mkSidebar false None [] (renaming sb)
    | Rejected _ => sb
    end in
  setRenaming false sb.

(** ** Messages ([handleSendMessage], [messagesApi.send]) *)

(** Where the id of an assistant message comes from: [crypto.randomUUID()]
    when there is one, else [Date.now()]. *)
Inductive IdSource :=
| RandomUUID (uuid : jsstring)
| DateNow (ms : Z).

Definition messagesApi_send (conversationId answer : jsstring) (ids : IdSource)
  (now : Z) : Message :=
  let messageId :=
    match ids with
    | RandomUUID uuid => js "assistant-" ++ uuid
    | DateNow ms => js "assistant-" ++ numberToString ms
    end in
  mkMessage (Some messageId) conversationId Assistant answer (Some (Iso now)).

Inductive SendPhase :=
| SendIgnored
| SendAwaitsEnsure (a : Awaited)
| SendAwaitsReply (ensuredConversationId : jsstring)
| SendDone.

Definition handleSendMessage (r : State) (content : jsstring) (st : State)
  : SendPhase * State :=
  if sendingMessage r then (SendIgnored, st)
  else
    let st := setSendingMessage true st in
    let '(a, st) := ensureActiveConversation r (Some content) st in
    (SendAwaitsEnsure a, st).

(** The [catch] and [finally] blocks, entered with the values the two local
    variables have at the throw. *)
Definition handleSendMessage_failed (ensuredConversationId : option jsstring)
  (userMessageAppended : bool) (st : State) : State :=
  let st := toast (errorToast "Failed to send message. Using offline mode.") st in
  let st :=
    match ensuredConversationId with
    | Some ((_ :: _) as fallbackConversationId) =>
        if userMessageAppended
        then withTimers (timers st ++ [fallbackConversationId]) st
        else st
    | _ => st
    end in
  setSendingMessage false st.

Definition handleSendMessage_ensured (content : jsstring)
  (ensured : Settled EnsureConversationResult) (nowId now : Z) (st : State)
  : SendPhase * State :=
  match ensured with
  | Fulfilled res =>
      let ensuredConversationId := conversationId res in
      let userMessage :=
        mkMessage (Some (js "temp-" ++ numberToString nowId)) ensuredConversationId
          User content (Some (Iso now)) in
      let st := setMessages (messages st ++ [userMessage]) st in
      (SendAwaitsReply ensuredConversationId,
       issue (SendMessage ensuredConversationId content) st)
  | Rejected _ => (SendDone, handleSendMessage_failed None false st)
  end.

Definition handleSendMessage_replied (ensuredConversationId : jsstring)
  (response : Settled jsstring) (ids : IdSource) (now : Z) (st : State) : State :=
  match response with
  | Fulfilled answer =>
      let assistantMessage := messagesApi_send ensuredConversationId answer ids now in
      let st := setMessages (messages st ++ [assistantMessage]) st in
      setSendingMessage false st
  | Rejected _ => handleSendMessage_failed (Some ensuredConversationId) true st
  end.

(** The callback given to [setTimeout], for the [k]-th armed timer. *)
Definition offlineReply (k : nat) (nowId now : Z) (st : State) : State :=
  match nth_error (timers st) k with
  | Some fallbackConversationId =>
      let assistantMessage :=
        mkMessage (Some (numberToString (nowId + 1)%Z)) fallbackConversationId
          Assistant
          (js "This is a mock response. Connect to your backend API to get real AI responses based on your documents.")
          (Some (Iso now)) in
      let st := withTimers (removeNth k (timers st)) st in
      setMessages (messages st ++ [assistantMessage]) st
  | None => st
  end.

(** The optimistic user message of a send. *)
Definition userMessage (content tempId : jsstring) (id : jsstring) (now : Z) : Message :=
  mkMessage (Some tempId) id User content (Some (Iso now)).


(** ** Documents *)

Record UploadResponse := mkUploadResponse {
  doc_id : jsstring;
  path : jsstring
}.

Definition documentsApi_upload (conversationId : jsstring) (file : File)
  (res : UploadResponse) (now : Z) : Document :=
  mkDocument (doc_id res) conversationId (file_name file) None (Iso now) true
    (Some (path res)).

Definition handleUploadDocument (r : State) (st : State) : Awaited * State :=
  ensureActiveConversation r None st.

Definition handleUploadDocument_failed (ensuredConversationId : option jsstring)
  (file : File) (nowId now : Z) (st : State) : State :=
  let st := toast (errorToast "Failed to upload document. Using offline mode.") st in
  match ensuredConversationId with
  | Some ((_ :: _) as ensuredConversationId) =>
      let newDocument :=
        mkDocument (numberToString nowId) ensuredConversationId (file_name file)
          (Some (file_bytes file)) (Iso now) true None in
      setDocuments (documents st ++ [newDocument]) st
  | _ => st
  end.

(** After [ensureActiveConversation] settled: the conversation id the upload
    was sent for, if it was sent. *)
Definition handleUploadDocument_ensured (file : File)
  (ensured : Settled EnsureConversationResult) (nowId now : Z) (st : State)
  : option jsstring * State :=
  match ensured with
  | Fulfilled res =>
      let ensuredConversationId := conversationId res in
      (Some ensuredConversationId, issue (UploadDocument ensuredConversationId file) st)
  | Rejected _ => (None, handleUploadDocument_failed None file nowId now st)
  end.

Definition handleUploadDocument_uploaded (ensuredConversationId : jsstring)
  (file : File) (response : Settled UploadResponse) (nowId now : Z) (st : State)
  : State :=
  match response with
  | Fulfilled res =>
      let newDocument := documentsApi_upload ensuredConversationId file res now in
      let st := setDocuments (documents st ++ [newDocument]) st in
      toast (mkToast (js "Success") (file_name file ++ js " uploaded successfully") false)
        st
  | Rejected _ =>
      handleUploadDocument_failed (Some ensuredConversationId) file nowId now st
  end.

(** [None]: the guard [if (!selectedConversationId) return] fired. *)
Definition handleDeleteDocument (r : State) (documentId : jsstring) (st : State)
  : option jsstring * State :=
  match selectedConversationId r with
  | Some ((_ :: _) as selected) =>
      (Some selected, issue (DeleteDocument selected documentId) st)
  | _ => (None, st)
  end.

Definition handleDeleteDocument_settled (documentId : jsstring)
  (response : Settled unit) (st : State) : Settled unit * State :=
  match response with
  | Fulfilled _ =>
      let st :=
        setDocuments
          (filter (fun d => negb (eqb (document_id d) documentId)) (documents st)) st in
      (Fulfilled tt, toast (plainToast "Success" "Document deleted successfully") st)
  | Rejected _ => (Fulfilled tt, toast (errorToast "Failed to delete document") st)
  end.

Definition handleToggleDocumentInclude (r : State) (documentId : jsstring)
  (isIncluded : bool) (st : State) : option jsstring * State :=
  match selectedConversationId r with
  | Some ((_ :: _) as selected) =>
      (Some selected, issue (ToggleInclude selected documentId isIncluded) st)
  | _ => (None, st)
  end.

Definition toggled (documentId : jsstring) (isIncluded : bool) (d : Document)
  : Document :=
  if eqb (document_id d) documentId
  then mkDocument (document_id d) (document_conversation_id d) (filename d)
         (file_size d) (upload_date d) isIncluded (storage_path d)
  else d.

Definition handleToggleDocumentInclude_settled (documentId : jsstring)
  (isIncluded : bool) (response : Settled unit) (st : State)
  : Settled unit * State :=
  match response with
  | Fulfilled _ =>
      (Fulfilled tt,
       setDocuments (map (toggled documentId isIncluded) (documents st)) st)
  | Rejected _ => (Fulfilled tt, toast (errorToast "Failed to update document") st)
  end.

(** ** The component as a transition system

    [handle] runs one piece of one handler; [commit] is the render that
    follows a state change, with the effects whose dependencies changed, in
    the order the component declares them.  The event that resumes a handler
    carries the variables the handler closed over (the system does not check
    that a resumed handler was started).

    [step] is a piece together with the render and the effects that follow
    it, the way React flushes a click.  After a piece that a promise or a
    timer resumed the render comes later, and a callback that is due runs
    before it, with the closures and the interval of the render before:
    those runs are the ones of [act], further down, where the render is a
    moment of its own. *)

Definition initialState (mobile signedIn : bool) : State :=
  {| conversations := []; selectedConversationId := None; messages := [];
     documents := []; loading := true; sendingMessage := false;
     previewDoc := None; previewingDocId := None;
     isConversationsSidebarOpen := true; isDocumentsPanelOpen := true;
     backendReady := false; backendChecking := false; backendRetryCount := 0%Z;
     backendLastError := None; isMobile := mobile; user := signedIn;
     isMountedRef := true; healthCheckInFlightRef := false;
     conversationCreationRef := None; hasLoadedConversationsRef := false;
     requests := []; toasts := []; creations := []; healthRun := None;
     healthInterval := false; timers := [] |}.

(** The effect on [[isMobile]]. *)
Definition mobileEffect (st : State) : State :=
  if isMobile st
  then setIsDocumentsPanelOpen false (setIsConversationsSidebarOpen false st)
  else setIsDocumentsPanelOpen true (setIsConversationsSidebarOpen true st).

Definition optStringEq (a b : option jsstring) : bool :=
  match a, b with
  | Some x, Some y => eqb x y
  | None, None => true
  | _, _ => false
  end.

(** The effects read the render [after]; their writes accumulate. *)
Definition commit (before after : State) : State :=
  if isMountedRef after then
    let readyChanged := negb (Bool.eqb (backendReady before) (backendReady after)) in
    let userChanged := negb (Bool.eqb (user before) (user after)) in
    let selectionChanged :=
      negb (optStringEq (selectedConversationId before)
              (selectedConversationId after)) in
    let st := after in
    let st :=
      if readyChanged then
        let st := healthEffect_cleanup st in
        if backendReady after then st
        else withHealthInterval true (runHealthCheck after st)
      else st in
    let st :=
      if (userChanged || readyChanged) && user after && backendReady after
      then snd (loadConversations after st)
      else st in
    if selectionChanged then
      match selectedConversationId after with
      | Some ((_ :: _) as selected) => loadDocuments selected (loadMessages selected st)
      | _ => st
      end
    else st
  else after.

Definition mount (mobile signedIn : bool) : State :=
  let r := initialState mobile signedIn in
  selectionEffect (conversationsEffect (mobileEffect (healthEffect r))).

Inductive Event :=
| Tick
| CheckAgain
| Fetched (response : Settled Z)
| Unmount
| ConversationsLoaded (r : State) (shouldShowInitialSpinner : bool)
    (response : Settled (list Conversation)) (now now' : Z)
| MessagesLoaded (conversationId : jsstring) (response : Settled (list Message))
    (now : Z)
| DocumentsLoaded (response : Settled (list Document))
| ClickCreate
| Created (r : State) (response : Settled jsstring) (now nowId now' now'' : Z)
| ClickSelect (conversationId : jsstring)
| ClickDelete (conversationId : jsstring)
| Deleted (r : State) (conversationId : jsstring) (response : Settled unit)
| Rename (conversationId title : jsstring)
| Renamed (conversationId title : jsstring) (response : Settled unit) (now : Z)
| CreationDone (p : nat) (response : Settled jsstring) (now : Z)
| EnsureResumed (p : nat)
| Send (content : jsstring)
| SendEnsured (content : jsstring) (ensured : Settled EnsureConversationResult)
    (nowId now : Z)
| SendReplied (conversationId : jsstring) (response : Settled jsstring)
    (ids : IdSource) (now : Z)
| TimerFired (k : nat) (nowId now : Z)
| Upload
| UploadEnsured (file : File) (ensured : Settled EnsureConversationResult)
    (nowId now : Z)
| Uploaded (conversationId : jsstring) (file : File)
    (response : Settled UploadResponse) (nowId now : Z)
| ClickDeleteDocument (documentId : jsstring)
| DocumentDeleted (documentId : jsstring) (response : Settled unit)
| ClickToggle (documentId : jsstring) (isIncluded : bool)
| Toggled (documentId : jsstring) (isIncluded : bool) (response : Settled unit).

Definition handle (ev : Event) (st : State) : State :=
  match ev with
  | Tick => intervalTick st
  | CheckAgain => clickCheckAgain st
  | Fetched response => runHealthCheck_fetched response st
  | Unmount => healthEffect_cleanup (isMountedRef_set false st)
  | ConversationsLoaded r spinner response now now' =>
      loadConversations_settled r spinner response now now' st
  | MessagesLoaded conversationId response now =>
      loadMessages_settled conversationId response now st
  | DocumentsLoaded response => loadDocuments_settled response st
  | ClickCreate => handleCreateConversation st st
  | Created r response now nowId now' now'' =>
      handleCreateConversation_settled r response now nowId now' now'' st
  | ClickSelect conversationId => handleSelectConversation st conversationId st
  | ClickDelete conversationId => handleDeleteConversation conversationId st
  | Deleted r conversationId response =>
      snd (handleDeleteConversation_settled r conversationId response st)
  | Rename conversationId title => handleRenameConversation conversationId title st
  | Renamed conversationId title response now =>
      snd (handleRenameConversation_settled conversationId title response now st)
  | CreationDone p response now => creationSettled p response now st
  | EnsureResumed p =>
      match ensureActiveConversation_resumed p st with
      | Some (_, st') => st'
      | None => st
      end
  | Send content' => snd (handleSendMessage st content' st)
  | SendEnsured content' ensured nowId now =>
      snd (handleSendMessage_ensured content' ensured nowId now st)
  | SendReplied conversationId response ids now =>
      handleSendMessage_replied conversationId response ids now st
  | TimerFired k nowId now => offlineReply k nowId now st
  | Upload => snd (handleUploadDocument st st)
  | UploadEnsured file ensured nowId now =>
      snd (handleUploadDocument_ensured file ensured nowId now st)
  | Uploaded conversationId file response nowId now =>
      handleUploadDocument_uploaded conversationId file response nowId now st
  | ClickDeleteDocument documentId => snd (handleDeleteDocument st documentId st)
  | DocumentDeleted documentId response =>
      snd (handleDeleteDocument_settled documentId response st)
  | ClickToggle documentId isIncluded =>
      snd (handleToggleDocumentInclude st documentId isIncluded st)
  | Toggled documentId isIncluded response =>
      snd (handleToggleDocumentInclude_settled documentId isIncluded response st)
  end.

Definition step (st : State) (ev : Event) : State := commit st (handle ev st).

Definition run (st : State) (evs : list Event) : State := fold_left step evs st.

Definition isProbe (c : RemoteCall) : bool :=
  match c with
  | HealthProbe _ => true
  | _ => false
  end.

(** The health probes sent so far. *)
Definition probes (st : State) : list RemoteCall := filter isProbe (requests st).

Definition isCreate (c : RemoteCall) : bool :=
  match c with
  | CreateConversation _ => true
  | _ => false
  end.

(** The events of the readiness monitor and of the component's life cycle. *)
Definition healthEvent (ev : Event) : bool :=
  match ev with
  | Tick | CheckAgain | Fetched _ | Unmount => true
  | _ => false
  end.

(** What the readiness latch is about. *)
Definition readiness (st : State) : bool * option HealthRun * bool * list RemoteCall :=
  (backendReady st, healthRun st, healthInterval st, probes st).

(** ** Reference definitions for the title, written from the specification *)

Module Spec.

(** The words of a string: its maximal runs of code units that are not white
    space.  [cur] is the word being read. *)
Fixpoint wordsFrom (cur : jsstring) (s : jsstring) : list jsstring :=
  match s with
  | [] => match cur with [] => [] | _ => [cur] end
  | c :: r =>
      if isWhiteSpace c
      then match cur with
           | [] => wordsFrom [] r
           | _ => cur :: wordsFrom [] r
           end
      else wordsFrom (cur ++ [c]) r
  end.

Definition words (s : jsstring) : list jsstring := wordsFrom [] s.

Fixpoint unwords (ws : list jsstring) : jsstring :=
  match ws with
  | [] => []
  | w :: rest =>
      match rest with
      | [] => w
      | _ => w ++ space :: unwords rest
      end
  end.

(** "Trimmed, and with internal whitespace runs collapsed to single spaces":
    the words of the seed, one space between two of them. *)
Definition normalized (seed : jsstring) : jsstring := unwords (words seed).

Definition fallbackTitle (n : Z) : jsstring :=
  js "New Conversation " ++ numberToString n.

(** The title as the specification words it: a normalized seed of more than
    60 code units is cut to its first 57 and gets an ellipsis. *)
Definition titleAsWorded (seed : option jsstring) (n : Z) : jsstring :=
  match option_map normalized seed with
  | Some ((_ :: _) as t) =>
      if length t <=? 60 then t else firstn 57 t ++ js "..."
  | _ => fallbackTitle n
  end.

(** The title with the cut made precise: when the 57th code unit is the space
    between two words, that space is dropped too. *)
Definition title (seed : option jsstring) (n : Z) : jsstring :=
  match option_map normalized seed with
  | Some ((_ :: _) as t) =>
      if length t <=? 60 then t
      else if (nth 56 t 0 =? space)%N then firstn 56 t ++ js "..."
      else firstn 57 t ++ js "..."
  | _ => fallbackTitle n
  end.

(** What a normalized string looks like: every white-space unit in it is a
    space, it follows a unit that is not white space ([prev] tells whether
    the unit before the string is white space), and it is not the last. *)
Fixpoint singleSpaced (prev : bool) (s : jsstring) : bool :=
  match s with
  | [] => true
  | c :: r =>
      if isWhiteSpace c
      then negb prev && (c =? space)%N
           && match r with [] => false | _ => true end
           && singleSpaced true r
      else singleSpaced false r
  end.

End Spec.

(** ** Panel toggles ([toggleConversationsSidebar], [toggleDocumentsPanel]) *)

(** [prev] is the cell's value when the updater runs; [isMobile] is the
    render's. *)
Definition toggleConversationsSidebar (r : State) (st : State) : State :=
  let next := negb (isConversationsSidebarOpen st) in
  let st := if next && isMobile r then setIsDocumentsPanelOpen false st else st in
  setIsConversationsSidebarOpen next st.

Definition toggleDocumentsPanel (r : State) (st : State) : State :=
  let next := negb (isDocumentsPanelOpen st) in
  let st := if next && isMobile r then setIsConversationsSidebarOpen false st else st in
  setIsDocumentsPanelOpen next st.

(** The transition system with the two toggle buttons. *)
Inductive UiEvent :=
| Core (ev : Event)
| ToggleConversations
| ToggleDocuments.

Definition uiStep (st : State) (ev : UiEvent) : State :=
  match ev with
  | Core ev => step st ev
  | ToggleConversations => commit st (toggleConversationsSidebar st st)
  | ToggleDocuments => commit st (toggleDocumentsPanel st st)
  end.

Definition uiRun (st : State) (evs : list UiEvent) : State := fold_left uiStep evs st.

(** ** Readiness monitor: what a probe's outcome means *)

(** [response.status < 500] *)
Definition reachableBy (response : Settled Z) : bool :=
  match response with
  | Fulfilled status => (status <? 500)%Z
  | Rejected _ => false
  end.

(** The value [lastErrorMessage] gets from a probe of [path] that does not
    reach the backend. *)
Definition probeError (path : jsstring) (response : Settled Z) : jsstring :=
  match response with
  | Fulfilled status =>
      js "Backend responded with status " ++ numberToString status ++ js " at " ++ path
  | Rejected error => errorMessage error "Unable to reach backend"
  end.

(** The [useState] cells of the readiness monitor. *)
Definition readinessCells (st : State) : bool * bool * Z * option jsstring :=
  (backendReady st, backendChecking st, backendRetryCount st, backendLastError st).

(** Some creation promise is suspended at its request. *)
Definition creationPending (c : Creation) : bool :=
  match c with
  | CreationPending _ _ => true
  | CreationSettled _ => false
  end.

(** Whenever a creation promise is suspended, it is the cached one. *)
Definition singleFlight (st : State) : Prop :=
  forall q c,
    nth_error (creations st) q = Some c -> creationPending c = true ->
    conversationCreationRef st = Some q.

(** The busy flag tells whether a health check is suspended. *)
Definition busy (st : State) : Prop :=
  healthCheckInFlightRef st
  = match healthRun st with Some _ => true | None => false end.

(** The events that call [ensureActiveConversation] or resume its promise. *)
Definition creationEvent (ev : Event) : bool :=
  match ev with
  | Send _ | Upload | CreationDone _ _ _ | EnsureResumed _ => true
  | _ => false
  end.

(** ** The render as a moment of its own

    [rendered] is the state the last render saw: the closures of the
    handlers on the page and the dependencies of the effects are taken from
    it.  [store] is what the cells, the refs and the outside world hold
    now. *)
Record Component := mkComponent {
  rendered : State;
  store : State
}.

(** A piece run from the page rendered as [r].  A click calls the handler
    the last render created; a piece that a promise resumes has its closure
    in the event, and the interval has the callback of the render that
    installed it ([intervalTick]). *)
Definition handleIn (r : State) (ev : Event) (st : State) : State :=
  match ev with
  | CheckAgain =>
      if backendReady r || backendChecking r then st else runHealthCheck r st
  | ClickCreate => handleCreateConversation r st
  | ClickSelect conversationId => handleSelectConversation r conversationId st
  | Send content' => snd (handleSendMessage r content' st)
  | Upload => snd (handleUploadDocument r st)
  | ClickDeleteDocument documentId => snd (handleDeleteDocument r documentId st)
  | ClickToggle documentId isIncluded =>
      snd (handleToggleDocumentInclude r documentId isIncluded st)
  | _ => handle ev st
  end.

Inductive Moment :=
| Piece (ev : Event)
| Render.

(** [Render]: the component renders what the store holds, and the effects
    whose dependencies differ from those of the render before run, their
    clean-ups first.  The render and its effects are one moment. *)
Definition act (c : Component) (m : Moment) : Component :=
  match m with
  | Piece ev => mkComponent (rendered c) (handleIn (rendered c) ev (store c))
  | Render => mkComponent (store c) (commit (rendered c) (store c))
  end.

Definition acts (c : Component) (ms : list Moment) : Component :=
  fold_left act ms c.

(** After the first render and its effects. *)
Definition mounted (mobile signedIn : bool) : Component :=
  mkComponent (initialState mobile signedIn) (mount mobile signedIn).

(** What the clean-up of the health effect leaves: under a render that saw
    [backendReady], and in a component that is unmounted, no interval. *)
Definition cleanedUp (c : Component) : Prop :=
  (backendReady (rendered c) = true ->
   backendReady (store c) = true /\ healthInterval (store c) = false) /\
  (isMountedRef (store c) = false -> healthInterval (store c) = false).

(** ** The documents panel ([DocumentsPanel]) *)

(** A file picked in the file input: the [File] and its [type]. *)
Record PickedFile := mkPicked {
  picked : File;
  mimeType : jsstring
}.

(** What the outside world answers during one [onUploadDocument(file)]: to
    the create request, if one is sent, and to the upload request, with the
    clock readings taken after each. *)
Record UploadOracle := mkUploadOracle {
  creationResponse : Settled jsstring;
  createdAt : Z;
  uploadResponse : Settled UploadResponse;
  uploadedId : Z;
  uploadedAt : Z
}.

(** One [await onUploadDocument(file)] run to its end with nothing else
    running in between: [handleUploadDocument] of the render [r], its create
    request (if it sent one) and its upload request settling as the oracle
    says.  [None] when the promise awaited never settles. *)
Definition uploadToEnd (r : State) (file : File) (o : UploadOracle) (st : State)
  : option State :=
  let '(awaited, st) := handleUploadDocument r st in
  let resumed :=
    match awaited with
    | Returned res => Some (Fulfilled res, st)
    | Pending p =>
        ensureActiveConversation_resumed p
          (creationSettled p (creationResponse o) (createdAt o) st)
    end in
  match resumed with
  | Some (ensured, st) =>
      match handleUploadDocument_ensured file ensured (uploadedId o) (uploadedAt o) st with
      | (Some ensuredConversationId, st) =>
          Some (handleUploadDocument_uploaded ensuredConversationId file
                  (uploadResponse o) (uploadedId o) (uploadedAt o) st)
      | (None, st) => Some st
      end
  | None => None
  end.

(** [for (const file of Array.from(files)) await onUploadDocument(file)]:
    every turn calls the [onUploadDocument] of the render [r] in which
    [handleFileChange] was created. *)
Fixpoint uploadEach (r : State) (files : list PickedFile) (os : list UploadOracle)
  (st : State) : option State :=
  match files, os with
  | [], _ => Some st
  | f :: files, o :: os =>
      match uploadToEnd r (picked f) o st with
      | Some st => uploadEach r files os st
      | None => None
      end
  | _ :: _, [] => None
  end.

Inductive FileChange :=
| NothingPicked
| OnlyPdfAlert
| UploadsDone (st : State)
| UploadsSuspended.

Definition pdf : jsstring := js "application/pdf".

Definition handleFileChange (r : State) (files : list PickedFile)
  (os : list UploadOracle) (st : State) : FileChange :=
  match files with
  | [] => NothingPicked
  | _ =>
      let invalidFiles := filter (fun file => negb (eqb (mimeType file) pdf)) files in
      if 0 <? length invalidFiles then OnlyPdfAlert
      else
        match uploadEach r files os st with
        | Some st => UploadsDone st
        | None => UploadsSuspended
        end
  end.

(** [(x).toFixed(1)] for [x = num / den] with [0 <= num] and [den] a power of
    two: the quotient of two such integers below 2^53 is an exact double, and
    [toFixed] takes the integer [n] nearest to [10 x], the larger one on a
    tie. *)
Definition tenths (num den : Z) : Z := ((10 * num + den / 2) / den)%Z.

Definition toFixed1 (num den : Z) : jsstring :=
  let n := tenths num den in
  numberToString (n / 10)%Z ++ js "." ++ numberToString (n mod 10)%Z.

(** [formatFileSize] on an integer number of bytes or on a missing one. *)
Definition formatFileSize (bytes : option Z) : jsstring :=
  match bytes with
  | None => js "Unknown size"
  | Some bytes =>
      if (bytes <? 1024)%Z then numberToString bytes ++ js " B"
      else if (bytes <? 1024 * 1024)%Z then toFixed1 bytes 1024 ++ js " KB"
      else toFixed1 bytes (1024 * 1024) ++ js " MB"
  end.

(** ** The sign-up page ([SignupPage.handleSubmit]) *)

Record Signup := mkSignup {
  email : jsstring;
  password : jsstring;
  confirmPassword : jsstring;
  signupError : jsstring;
  signupLoading : bool;
  signUpCalls : list (jsstring * jsstring);
  pushed : list jsstring
}.

Definition setSignupError (v : jsstring) (s : Signup) : Signup :=
  mkSignup (email s) (password s) (confirmPassword s) v (signupLoading s)
    (signUpCalls s) (pushed s).

Definition setSignupLoading (v : bool) (s : Signup) : Signup :=
  mkSignup (email s) (password s) (confirmPassword s) (signupError s) v
    (signUpCalls s) (pushed s).

(** From the submit to [await signUp(email, password)]; the first component
    tells whether [signUp] was called. *)
Definition handleSubmit (r : Signup) (s : Signup) : bool * Signup :=
  let s := setSignupError [] s in
  if negb (eqb (password r) (confirmPassword r)) then
    (false, setSignupError (js "Passwords do not match") s)
  else if length (password r) <? 6 then
    (false, setSignupError (js "Password must be at least 6 characters") s)
  else
    let s := setSignupLoading true s in
    (true,
     mkSignup (email s) (password s) (confirmPassword s) (signupError s)
       (signupLoading s) (signUpCalls s ++ [(email r, password r)]) (pushed s)).

(** [signUp] of the auth context resolves to [{ error?: string }]: the
    result is the error message, if any. *)
Definition handleSubmit_settled (result : Settled (option jsstring)) (s : Signup)
  : Signup :=
  let s :=
    match result with
    | Fulfilled _ =>
        mkSignup (email s) (password s) (confirmPassword s) (signupError s)
          (signupLoading s) (signUpCalls s) (pushed s ++ [js "/app"])
    | Rejected _ => setSignupError (js "Failed to create account. Please try again.") s
    end in
  setSignupLoading false s.

(** ** The log-in page ([LoginPage.handleSubmit]) *)

Record Login := mkLogin {
  loginError : jsstring;
  loginLoading : bool;
  signInCalls : list (jsstring * jsstring);
  loginPushed : list jsstring
}.

(** From the submit to [await signIn(email, password)]. *)
Definition handleLogin (email' password' : jsstring) (s : Login) : Login :=
  mkLogin [] true (signInCalls s ++ [(email', password')]) (loginPushed s).

(** [signIn] resolves to [{ error?: string }]. *)
Definition handleLogin_settled (result : Settled (option jsstring)) (s : Login)
  : Login :=
  let s :=
    match result with
    | Fulfilled (Some ((_ :: _) as signInError)) =>
        mkLogin signInError (loginLoading s) (signInCalls s) (loginPushed s)
    | Fulfilled _ =>
        mkLogin (loginError s) (loginLoading s) (signInCalls s)
          (loginPushed s ++ [js "/app"])
    | Rejected _ =>
        mkLogin (js "Failed to sign in. Please check your credentials.")
          (loginLoading s) (signInCalls s) (loginPushed s)
    end in
  mkLogin (loginError s) false (signInCalls s) (loginPushed s).

(** ** The chat panel ([ChatPanel.handleSubmit]) *)

(** [loading] is the prop the page passes, its [sendingMessage]; [r] is the
    render of the page whose [handleSendMessage] the panel got.  The result
    is what [onSendMessage] did, if it was called, and the new input. *)
Definition chatSubmit (input : jsstring) (r : State) (st : State)
  : option (SendPhase * State) * jsstring :=
  match trim input with
  | (_ :: _) as trimmed =>
      if negb (sendingMessage r)
      then (Some (handleSendMessage r trimmed st), [])
      else (None, input)
  | [] => (None, input)
  end.

(** ** Sample data *)

Module Sample.

Definition convA : Conversation := mkConversation (js "a") (js "Alpha") (Raw (js "t1")) (Raw (js "t1")).
Definition convB : Conversation := mkConversation (js "b") (js "Beta") (Raw (js "t2")) (Raw (js "t2")).
Definition msgA : Message :=
  mkMessage (Some (js "m1")) (js "a") User (js "hello") (Some (Raw (js "t3"))).
Definition docA : Document :=
  mkDocument (js "d1") (js "a") (js "a.pdf") None (Raw (js "t4")) true (Some (js "a/a.pdf")).
Definition docA' : Document :=
  mkDocument (js "d2") (js "a") (js "b.pdf") None (Raw (js "t5")) false (Some (js "a/b.pdf")).
Definition report : File := mkFile (js "report.pdf") 2048.

(** Desktop, signed in, the first probe answered with 200. *)
Definition ready : State := run (mount false true) [Fetched (Fulfilled 200%Z)].

(** Then two conversations loaded, the first selected with its data. *)
Definition loaded : State :=
  run ready
    [ConversationsLoaded ready true (Fulfilled [convA; convB]) 0 0;
     MessagesLoaded (js "a") (Fulfilled [msgA]) 0;
     DocumentsLoaded (Fulfilled [docA; docA'])].

(** A seed whose normalized form has a space as 57th code unit. *)
Definition longSeed : jsstring :=
  repeat 97%N 56 ++ js " " ++ repeat 98%N 10.

End Sample.

(** * Properties *)

(** ** Strings *)

Section StringFacts.

Lemma eqb_eq a b : eqb a b = true <-> a = b.
Proof. unfold eqb; destruct (list_eq_dec N.eq_dec a b); split; congruence. Qed.

Lemma eqb_refl a : eqb a a = true.
Proof. apply eqb_eq; reflexivity. Qed.

Lemma eqb_neq a b : eqb a b = false <-> a <> b.
Proof. unfold eqb; destruct (list_eq_dec N.eq_dec a b); split; congruence. Qed.

Lemma trimEnd_cons c r :
  trimEnd (c :: r) =
  match trimEnd r with
  | [] => if isWhiteSpace c then [] else [c]
  | t => c :: t
  end.
Proof. reflexivity. Qed.

Lemma trimEnd_cons_solid c r :
  isWhiteSpace c = false -> trimEnd (c :: r) = c :: trimEnd r.
Proof. intros H; rewrite trimEnd_cons, H; destruct (trimEnd r); reflexivity. Qed.

Lemma trimEnd_cons_blank c r :
  isWhiteSpace c = true ->
  trimEnd (c :: r) = match trimEnd r with [] => [] | t => c :: t end.
Proof. intros H; rewrite trimEnd_cons, H; reflexivity. Qed.

Lemma replaceWs_solid b c r :
  isWhiteSpace c = false -> replaceWs b (c :: r) = c :: replaceWs false r.
Proof. intros H; destruct b; cbn; rewrite H; reflexivity. Qed.

Lemma replaceWs_blank b c r :
  isWhiteSpace c = true ->
  replaceWs b (c :: r) = if b then replaceWs true r else space :: replaceWs true r.
Proof. intros H; cbn; rewrite H; reflexivity. Qed.

(** A scan that starts inside a run skips the white space in front. *)
Lemma replaceWs_trimStart s :
  replaceWs true (trimEnd s) = replaceWs false (trimEnd (trimStart s)).
Proof.
  induction s as [|c r IH]; [reflexivity|].
  cbn [trimStart]. destruct (isWhiteSpace c) eqn:Hc.
  - rewrite <- IH, (trimEnd_cons_blank _ _ Hc).
    destruct (trimEnd r) as [|d t] eqn:Ht; [reflexivity|].
    cbn [replaceWs]. rewrite Hc. reflexivity.
  - rewrite (trimEnd_cons_solid _ _ Hc), !(replaceWs_solid _ _ _ Hc). reflexivity.
Qed.

Lemma wordsFrom_nil cur s :
  Spec.wordsFrom cur s = [] -> cur = [] /\ trimEnd s = [].
Proof.
  revert cur; induction s as [|c r IH]; intros cur H; cbn in H.
  - destruct cur; [auto | discriminate].
  - destruct (isWhiteSpace c) eqn:Hc.
    + destruct cur; [|discriminate].
      destruct (IH _ H) as [_ Hr].
      rewrite (trimEnd_cons_blank _ _ Hc), Hr. auto.
    + destruct (IH _ H) as [Hcur _]. destruct cur; discriminate.
Qed.

Lemma trimEnd_nil_words s : trimEnd s = [] -> Spec.wordsFrom [] s = [].
Proof.
  induction s as [|c r IH]; [reflexivity|].
  rewrite trimEnd_cons. cbn [Spec.wordsFrom].
  destruct (trimEnd r) eqn:Hr; [|discriminate].
  destruct (isWhiteSpace c); [auto | discriminate].
Qed.

Lemma unwords_cons w rest :
  Spec.unwords (w :: rest) =
  match rest with [] => w | _ => w ++ space :: Spec.unwords rest end.
Proof. reflexivity. Qed.

(** The scanner of the code and the words of the specification agree. *)
Lemma unwords_wordsFrom s :
  Spec.unwords (Spec.wordsFrom [] s) = replaceWs true (trimEnd s) /\
  forall cur, cur <> [] ->
    Spec.unwords (Spec.wordsFrom cur s) = cur ++ replaceWs false (trimEnd s).
Proof.
  induction s as [|c r [IH0 IH1]].
  - split; [reflexivity|]. intros cur Hcur. cbn.
    destruct cur; [congruence|]. rewrite app_nil_r. reflexivity.
  - destruct (isWhiteSpace c) eqn:Hc.
    + assert (Hblank : replaceWs true (trimEnd (c :: r)) = replaceWs true (trimEnd r)).
      { rewrite (trimEnd_cons_blank _ _ Hc).
        destruct (trimEnd r) eqn:Hr; [reflexivity|]. cbn [replaceWs]. rewrite Hc.
        reflexivity. }
      split.
      * cbn [Spec.wordsFrom]. rewrite Hc, Hblank. exact IH0.
      * intros cur Hcur. cbn [Spec.wordsFrom]. rewrite Hc.
        destruct cur as [|a cur']; [congruence|].
        rewrite unwords_cons, (trimEnd_cons_blank _ _ Hc).
        destruct (Spec.wordsFrom [] r) as [|w ws] eqn:Hw.
        -- apply wordsFrom_nil in Hw. destruct Hw as [_ Hr]. rewrite Hr.
           cbn. rewrite app_nil_r. reflexivity.
        -- destruct (trimEnd r) as [|d t] eqn:Hr.
           ++ pose proof (trimEnd_nil_words r Hr). congruence.
           ++ cbn [replaceWs]. rewrite Hc. rewrite IH0. reflexivity.
    + split.
      * cbn [Spec.wordsFrom]. rewrite Hc. cbn [app].
        rewrite (IH1 [c]) by discriminate.
        rewrite (trimEnd_cons_solid _ _ Hc), (replaceWs_solid _ _ _ Hc). reflexivity.
      * intros cur Hcur. cbn [Spec.wordsFrom]. rewrite Hc.
        rewrite (IH1 (cur ++ [c])) by (destruct cur; discriminate).
        rewrite (trimEnd_cons_solid _ _ Hc), (replaceWs_solid _ _ _ Hc).
        rewrite <- app_assoc. reflexivity.
Qed.

Lemma normalized_scan s : replaceWhiteSpaceRuns (trim s) = Spec.normalized s.
Proof.
  unfold replaceWhiteSpaceRuns, trim, Spec.normalized, Spec.words.
  rewrite (proj1 (unwords_wordsFrom s)). symmetry. apply replaceWs_trimStart.
Qed.

Lemma replaceWs_false_nil s : replaceWs false s = [] -> s = [].
Proof. destruct s as [|c r]; [reflexivity|]. cbn. destruct (isWhiteSpace c); discriminate. Qed.

Lemma replaceWs_trimEnd_nil b s : replaceWs b (trimEnd s) = [] -> trimEnd s = [].
Proof.
  revert b; induction s as [|c r IH]; intros b H; [reflexivity|].
  destruct (isWhiteSpace c) eqn:Hc.
  - rewrite (trimEnd_cons_blank _ _ Hc) in *.
    destruct (trimEnd r) as [|d t] eqn:Hr; [reflexivity|].
    cbn [replaceWs] in H. rewrite Hc in H.
    destruct b; [|discriminate]. specialize (IH true H). discriminate.
  - rewrite (trimEnd_cons_solid _ _ Hc), (replaceWs_solid _ _ _ Hc) in H.
    discriminate.
Qed.

Lemma singleSpaced_cons prev c r :
  Spec.singleSpaced prev (c :: r) =
  if isWhiteSpace c
  then negb prev && (c =? space)%N
       && match r with [] => false | _ => true end
       && Spec.singleSpaced true r
  else Spec.singleSpaced false r.
Proof. reflexivity. Qed.

Lemma scan_singleSpaced b s : Spec.singleSpaced b (replaceWs b (trimEnd s)) = true.
Proof.
  revert b; induction s as [|c r IH]; intros b; [reflexivity|].
  destruct (isWhiteSpace c) eqn:Hc.
  - rewrite (trimEnd_cons_blank _ _ Hc).
    destruct (trimEnd r) as [|d t] eqn:Hr; [reflexivity|].
    rewrite (replaceWs_blank _ _ _ Hc). destruct b; [apply IH|].
    pose proof (IH true) as HX.
    destruct (replaceWs true (d :: t)) as [|y ys] eqn:Hx.
    { rewrite <- Hr in Hx. apply replaceWs_trimEnd_nil in Hx. congruence. }
    rewrite singleSpaced_cons, HX, N.eqb_refl. reflexivity.
  - rewrite (trimEnd_cons_solid _ _ Hc), (replaceWs_solid _ _ _ Hc).
    cbn [Spec.singleSpaced]. rewrite Hc. apply IH.
Qed.

Lemma normalized_singleSpaced s : Spec.singleSpaced true (Spec.normalized s) = true.
Proof.
  unfold Spec.normalized, Spec.words. rewrite (proj1 (unwords_wordsFrom s)).
  apply scan_singleSpaced.
Qed.

Lemma space_is_blank c : (c =? space)%N = true -> isWhiteSpace c = true.
Proof. intros H; apply N.eqb_eq in H; subst; reflexivity. Qed.

Lemma singleSpaced_nth b s k :
  Spec.singleSpaced b s = true -> k < length s ->
  isWhiteSpace (nth k s 0%N) = (nth k s 0 =? space)%N.
Proof.
  revert b k; induction s as [|c r IH]; intros b k H Hk; [cbn in Hk; lia|].
  cbn [Spec.singleSpaced] in H. destruct k as [|k]; cbn [nth].
  - destruct (isWhiteSpace c) eqn:Hc.
    + apply andb_prop in H; destruct H as [H _].
      apply andb_prop in H; destruct H as [H _].
      apply andb_prop in H; destruct H as [_ H]. auto.
    + destruct (c =? space)%N eqn:E; [|reflexivity].
      apply space_is_blank in E. congruence.
  - cbn in Hk. destruct (isWhiteSpace c).
    + apply andb_prop in H; destruct H as [_ H]. apply (IH true); [exact H | lia].
    + apply (IH false); [exact H | lia].
Qed.

(** Cutting a normalized string and trimming the cut drops at most the space
    the cut ends on. *)
Lemma trimEnd_firstn b s k :
  Spec.singleSpaced b s = true -> k < length s ->
  trimEnd (firstn (S k) s) =
  if isWhiteSpace (nth k s 0%N) then firstn k s else firstn (S k) s.
Proof.
  revert b k; induction s as [|c r IH]; intros b k H Hk; [cbn in Hk; lia|].
  destruct k as [|k].
  - cbn. destruct (isWhiteSpace c); reflexivity.
  - cbn in Hk. assert (Hk' : k < length r) by lia.
    assert (Hr : Spec.singleSpaced (isWhiteSpace c) r = true).
    { cbn [Spec.singleSpaced] in H. destruct (isWhiteSpace c); [|exact H].
      apply andb_prop in H; tauto. }
    change (firstn (S (S k)) (c :: r)) with (c :: firstn (S k) r).
    change (nth (S k) (c :: r) 0%N) with (nth k r 0%N).
    rewrite trimEnd_cons, (IH _ _ Hr Hk').
    destruct (isWhiteSpace (nth k r 0%N)) eqn:Hn.
    + destruct r as [|d r']; [cbn in Hk'; lia|].
      destruct k as [|k].
      * cbn [nth] in Hn. cbn [firstn].
        destruct (isWhiteSpace c) eqn:Hc; [|reflexivity].
        cbn [Spec.singleSpaced] in Hr. rewrite Hn in Hr. discriminate.
      * reflexivity.
    + destruct r as [|d r']; [cbn in Hk'; lia|]. reflexivity.
Qed.

Lemma title_refines seed n : deriveConversationTitle seed n = Spec.title seed n.
Proof.
  unfold deriveConversationTitle, Spec.title, Spec.fallbackTitle.
  destruct seed as [s|]; [|reflexivity]. cbn [option_map].
  rewrite <- (normalized_scan s).
  destruct (trim s) as [|c t] eqn:Ht; [reflexivity|].
  cbn [truthy].
  destruct (replaceWhiteSpaceRuns (c :: t)) as [|x xs] eqn:Hn.
  { apply replaceWs_false_nil in Hn. discriminate. }
  unfold MAX_AUTO_TITLE_LENGTH, slice0.
  destruct (length (x :: xs) <=? 60) eqn:Hlen; [reflexivity|].
  apply Nat.leb_gt in Hlen.
  assert (Hs : Spec.singleSpaced true (x :: xs) = true).
  { rewrite <- Hn, <- Ht, normalized_scan. apply normalized_singleSpaced. }
  change (60 - 3) with 57.
  rewrite (trimEnd_firstn true (x :: xs) 56 Hs) by lia.
  rewrite (singleSpaced_nth true (x :: xs) 56 Hs) by lia.
  destruct (nth 56 (x :: xs) 0 =? space)%N; reflexivity.
Qed.

End StringFacts.

(** ** Title derivation *)

Section Title.

(** C4, as the specification words it, fails: the code trims the 57-unit cut
    before it appends the ellipsis.  On [Sample.longSeed] (56 times "a", a
    space, 10 times "b") the wording gives the 56 "a", the space and "...";
    the code gives the 56 "a" and "...". *)
Lemma title_cut_counterexample :
  60 < length (Spec.normalized Sample.longSeed) /\
  Spec.titleAsWorded (Some Sample.longSeed) 1 = firstn 57 Sample.longSeed ++ js "..." /\
  deriveConversationTitle (Some Sample.longSeed) 1 = firstn 56 Sample.longSeed ++ js "..." /\
  deriveConversationTitle (Some Sample.longSeed) 1
    <> Spec.titleAsWorded (Some Sample.longSeed) 1.
Proof.
  repeat split; try (vm_compute; reflexivity).
  - vm_compute. lia.
  - vm_compute. discriminate.
Qed.

(** C4 (amended): the derived title is the seed's words joined by single
    spaces when that has at most 60 code units; when it has more, its first
    57 code units, less the space the cut may end on, followed by "...";
    and "New Conversation n" when the seed is absent or has no word.  The
    three examples of the specification hold as given. *)
Theorem title_derivation :
  (forall seed n, deriveConversationTitle seed n = Spec.title seed n) /\
  (forall n,
     deriveConversationTitle (Some (js "  hello   world  ")) n = js "hello world") /\
  (forall n,
     deriveConversationTitle (Some (repeat 97%N 80)) n = repeat 97%N 57 ++ js "..." /\
     length (deriveConversationTitle (Some (repeat 97%N 80)) n) = 60) /\
  (forall seed c1 c2,
     seed = None \/ seed = Some [] ->
     deriveConversationTitle seed (Z.of_nat (length [c1; c2 : Conversation]) + 1)
     = js "New Conversation 3").
Proof.
  split; [exact title_refines|].
  split; [intros n; vm_compute; reflexivity|].
  split; [intros n; split; vm_compute; reflexivity|].
  intros seed c1 c2 [-> | ->]; vm_compute; reflexivity.
Qed.

Lemma title_derivation_witness :
  deriveConversationTitle None (Z.of_nat (length [Sample.convA; Sample.convB]) + 1)
  = js "New Conversation 3".
Proof.
  apply (proj2 (proj2 (proj2 title_derivation)) None Sample.convA Sample.convB).
  left; reflexivity.
Defined.

End Title.

(** ** List loads *)

Section Loads.

Variables (r st : State).

(** C10: a failed list load installs placeholder data.  For conversations:
    the single conversation "1", "Getting Started", selected when the render
    that started the load had no selection.  For messages: a single assistant
    greeting, so an assistant message that no user message precedes.  For
    documents: the empty list. *)
Theorem list_load_fallbacks (e : Thrown) (spinner : bool) (now now' : Z)
  (conversationId : jsstring) :
  let stC := loadConversations_settled r spinner (Rejected e) now now' st in
  let stM := loadMessages_settled conversationId (Rejected e) now st in
  let stD := loadDocuments_settled (Rejected e) st in
  (conversations stC
     = [mkConversation (js "1") (js "Getting Started") (Iso now) (Iso now')] /\
   selectedConversationId stC
     = (if truthy (selectedConversationId r)
        then selectedConversationId st else Some (js "1"))) /\
  (exists greeting,
     messages stM = [greeting] /\ role greeting = Assistant /\
     message_conversation_id greeting = conversationId /\
     message_id greeting = Some (js "1") /\
     forall m, In m (messages stM) -> role m <> User) /\
  documents stD = [] /\
  conversations stM = conversations st /\ documents stM = documents st /\
  conversations stD = conversations st /\ messages stD = messages st /\
  messages stC = messages st /\ documents stC = documents st.
Proof.
  cbn zeta. unfold loadConversations_settled, loadMessages_settled, loadDocuments_settled.
  split.
  { destruct (truthy (selectedConversationId r)), spinner; cbn; auto. }
  split.
  { eexists; cbn; repeat split.
    intros m [<- | []]; cbn; discriminate. }
  destruct (truthy (selectedConversationId r)), spinner; cbn; repeat split.
Qed.

End Loads.

(** ** Conversations: delete and rename *)

Section Conversations.

Lemma optEqb_true a b : optEqb a b = true <-> a = Some b.
Proof.
  destruct a as [x|]; cbn; [|split; discriminate].
  rewrite eqb_eq. split; congruence.
Qed.

Lemma optEqb_false a b : optEqb a b = false <-> a <> Some b.
Proof.
  destruct (optEqb a b) eqn:E.
  - apply optEqb_true in E. split; [discriminate | contradiction].
  - split; [|reflexivity]. intros _ H. apply optEqb_true in H. congruence.
Qed.

(** C6: when the delete request succeeds the conversation leaves the store;
    if it was the selected one (in the render the handler belongs to) the
    first conversation left, if any, becomes selected and messages, documents
    and preview state are cleared; if it was not, none of these is touched.
    When the request fails the state is left as it was: only a toast is
    added. *)
Theorem delete_conversation_cascade (r st : State) (conversationId : jsstring) :
  let remaining := filter (keeps conversationId) (conversations st) in
  let st' := snd (handleDeleteConversation_settled r conversationId (Fulfilled tt) st) in
  (conversations st' = remaining /\
   forall c, In c (conversations st') <->
             In c (conversations st) /\ conversation_id c <> conversationId) /\
  (selectedConversationId r = Some conversationId ->
   selectedConversationId st' = option_map conversation_id (hd_error remaining) /\
   messages st' = [] /\ documents st' = [] /\
   previewDoc st' = None /\ previewingDocId st' = None) /\
  (selectedConversationId r <> Some conversationId ->
   selectedConversationId st' = selectedConversationId st /\
   messages st' = messages st /\ documents st' = documents st /\
   previewDoc st' = previewDoc st /\ previewingDocId st' = previewingDocId st) /\
  (forall e,
     snd (handleDeleteConversation_settled r conversationId (Rejected e) st)
     = toast (errorToast "Failed to delete conversation") st).
Proof.
  cbn zeta. unfold handleDeleteConversation_settled.
  repeat split.
  - cbn in H. apply filter_In in H. tauto.
  - cbn in H. apply filter_In in H. destruct H as [_ H]. unfold keeps in H.
    apply negb_true_iff, eqb_neq in H. exact H.
  - intros [Hin Hne]. cbn. apply filter_In. split; [exact Hin|].
    unfold keeps. apply negb_true_iff, eqb_neq. exact Hne.
  - apply optEqb_true in H. rewrite H. cbn.
    destruct (filter (keeps conversationId) (conversations st)); reflexivity.
  - apply optEqb_true in H. rewrite H. reflexivity.
  - apply optEqb_true in H. rewrite H. reflexivity.
  - apply optEqb_true in H. rewrite H. reflexivity.
  - apply optEqb_true in H. rewrite H. reflexivity.
  - apply optEqb_false in H. rewrite H. reflexivity.
  - apply optEqb_false in H. rewrite H. reflexivity.
  - apply optEqb_false in H. rewrite H. reflexivity.
  - apply optEqb_false in H. rewrite H. reflexivity.
  - apply optEqb_false in H. rewrite H. reflexivity.
Qed.

(** On [Sample.loaded], where "a" is selected: deleting "a" selects "b". *)
Lemma delete_conversation_cascade_witness :
  let st' :=
    snd (handleDeleteConversation_settled Sample.loaded (js "a") (Fulfilled tt)
           Sample.loaded) in
  selectedConversationId st' = Some (js "b") /\
  messages st' = [] /\ documents st' = [] /\
  previewDoc st' = None /\ previewingDocId st' = None.
Proof.
  exact (proj1 (proj2 (delete_conversation_cascade Sample.loaded Sample.loaded (js "a")))
           eq_refl).
Defined.

Lemma trimStart_blank s :
  forallb isWhiteSpace s = true -> trimStart s = [].
Proof.
  induction s as [|c t IH]; [reflexivity|]. cbn.
  destruct (isWhiteSpace c); [exact IH | discriminate].
Qed.

Lemma map_nth_error_inv {A B} (f : A -> B) l i y :
  nth_error (map f l) i = Some y -> exists x, nth_error l i = Some x /\ y = f x.
Proof.
  rewrite nth_error_map. destruct (nth_error l i) as [x|]; cbn; [|discriminate].
  intros [= <-]. eauto.
Qed.

(** C9: a rename that succeeds patches the title and [updated_at] of the
    conversations with the given id and nothing else; one that fails leaves
    the state as it was but for the toast, and the handler's promise rejects
    with the same error, so [handleConfirmRename] keeps its dialog open,
    whereas the toggle and delete handlers fulfil after a failure.  A rename
    whose title is empty or all white space sends no request. *)
Theorem rename_fail_closed (st : State) (conversationId title' : jsstring) (now : Z) :
  (let '(result, st') :=
     handleRenameConversation_settled conversationId title' (Fulfilled tt) now st in
   result = Fulfilled tt /\
   length (conversations st') = length (conversations st) /\
   (forall i c', nth_error (conversations st') i = Some c' ->
      exists c, nth_error (conversations st) i = Some c /\
        conversation_id c' = conversation_id c /\ created_at c' = created_at c /\
        (conversation_id c = conversationId ->
         title c' = title' /\ updated_at c' = Iso now) /\
        (conversation_id c <> conversationId -> c' = c)) /\
   st' = toast (plainToast "Conversation renamed" "Title updated successfully")
           (setConversations (conversations st') st)) /\
  (forall e,
     handleRenameConversation_settled conversationId title' (Rejected e) now st
     = (Rejected e, toast (errorToast "Failed to rename conversation") st)) /\
  (forall e sb,
     handleConfirmRename_settled (Rejected e) sb = setRenaming false sb /\
     renameDialogOpen (handleConfirmRename_settled (Fulfilled tt) sb) = false) /\
  (forall e r documentId isIncluded,
     fst (handleToggleDocumentInclude_settled documentId isIncluded (Rejected e) st)
     = Fulfilled tt /\
     fst (handleDeleteDocument_settled documentId (Rejected e) st) = Fulfilled tt /\
     fst (handleDeleteConversation_settled r conversationId (Rejected e) st)
     = Fulfilled tt) /\
  (forall sb,
     forallb isWhiteSpace (renameValue sb) = true ->
     handleConfirmRename sb st = (false, sb, st)) /\
  (forall sb id,
     conversationToRename sb = Some id -> id <> [] ->
     trim (renameValue sb) <> [] ->
     handleConfirmRename sb st
     = (true, setRenaming true sb,
        issue (RenameConversation id (trim (renameValue sb))) st)).
Proof.
  split; [|split; [|split; [|split; [|split]]]].
  - cbn. split; [reflexivity|]. split; [apply length_map|]. split; [|reflexivity].
    intros i c' H. apply map_nth_error_inv in H. destruct H as [c [Hc ->]].
    exists c. unfold renamed.
    destruct (eqb (conversation_id c) conversationId) eqn:E; cbn.
    + apply eqb_eq in E. repeat split; auto. intros; contradiction.
    + apply eqb_neq in E. repeat split; auto; intros; contradiction.
  - reflexivity.
  - intros e sb. split; reflexivity.
  - intros; repeat split.
  - intros sb H. unfold handleConfirmRename, trim.
    rewrite (trimStart_blank _ H). destruct (conversationToRename sb) as [[|? ?]|]; reflexivity.
  - intros sb id Hid Hne Htrim. unfold handleConfirmRename. rewrite Hid.
    destruct id as [|a id']; [congruence|].
    destruct (trim (renameValue sb)) as [|b t]; [congruence|]. reflexivity.
Qed.

Lemma rename_fail_closed_witness :
  handleConfirmRename (mkSidebar true (Some (js "a")) (js "   ") false) Sample.loaded
  = (false, mkSidebar true (Some (js "a")) (js "   ") false, Sample.loaded).
Proof.
  apply (proj1 (proj2 (proj2 (proj2 (proj2
           (rename_fail_closed Sample.loaded (js "a") (js "x") 0)))))).
  reflexivity.
Defined.

End Conversations.

(** ** Documents: toggle and upload *)

Section Documents.

(** C8: a toggle that succeeds changes, in the documents with the given id,
    the inclusion flag and nothing else, and leaves every other document and
    every other part of the state as it was; a toggle that fails leaves the
    state as it was but for the toast.  With no conversation selected the
    handler sends nothing. *)
Theorem toggle_inclusion_frame (st : State) (documentId : jsstring) (isIncluded : bool) :
  let st' :=
    snd (handleToggleDocumentInclude_settled documentId isIncluded (Fulfilled tt) st) in
  length (documents st') = length (documents st) /\
  (forall i d', nth_error (documents st') i = Some d' ->
     exists d, nth_error (documents st) i = Some d /\
       (document_id d <> documentId -> d' = d) /\
       (document_id d = documentId ->
        d' = mkDocument (document_id d) (document_conversation_id d) (filename d)
               (file_size d) (upload_date d) isIncluded (storage_path d))) /\
  st' = setDocuments (documents st') st /\
  (forall e,
     snd (handleToggleDocumentInclude_settled documentId isIncluded (Rejected e) st)
     = toast (errorToast "Failed to update document") st /\
     documents
       (snd (handleToggleDocumentInclude_settled documentId isIncluded (Rejected e) st))
     = documents st) /\
  (forall r,
     truthy (selectedConversationId r) = false ->
     handleToggleDocumentInclude r documentId isIncluded st = (None, st)).
Proof.
  cbn zeta. cbn [handleToggleDocumentInclude_settled snd documents setDocuments].
  split; [apply length_map|]. split; [|split; [reflexivity|split]].
  - intros i d' H. apply map_nth_error_inv in H. destruct H as [d [Hd ->]].
    exists d. split; [exact Hd|]. unfold toggled.
    destruct (eqb (document_id d) documentId) eqn:E.
    + apply eqb_eq in E. split; [intros; contradiction | reflexivity].
    + apply eqb_neq in E. split; [reflexivity | intros; contradiction].
  - intros e. split; reflexivity.
  - intros r Hr. unfold handleToggleDocumentInclude.
    destruct (selectedConversationId r) as [[|? ?]|]; [reflexivity | discriminate | reflexivity].
Qed.

(** A toggle clicked in a render that has no selection sends nothing. *)
Lemma toggle_inclusion_frame_witness :
  handleToggleDocumentInclude (initialState false true) (js "d2") true Sample.loaded
  = (None, Sample.loaded).
Proof.
  apply (proj2 (proj2 (proj2 (proj2
           (toggle_inclusion_frame Sample.loaded (js "d2") true))))).
  reflexivity.
Defined.

(** C7, as stated, fails when creation succeeds with the empty string as
    conversation id: [if (ensuredConversationId)] is then false and the
    [catch] block appends nothing.  No conversation is selected in
    [Sample.ready]; the create request is answered with the id "", the upload
    request fails. *)
Lemma upload_fallback_counterexample :
  let called := handleUploadDocument Sample.ready Sample.ready in
  let s2 := creationSettled 0 (Fulfilled []) 10 (snd called) in
  let resumed := ensureActiveConversation_resumed 0 s2 in
  let s3 := match resumed with Some (_, s) => s | None => s2 end in
  let ensured := Fulfilled (mkEnsured [] true) in
  let sent := handleUploadDocument_ensured Sample.report ensured 11 11 s3 in
  let s5 :=
    handleUploadDocument_uploaded [] Sample.report (Rejected NotAnError) 12 12
      (snd sent) in
  selectedConversationId Sample.ready = None /\
  fst called = Pending 0 /\
  option_map fst resumed = Some ensured /\
  fst sent = Some [] /\
  requests s5 = requests Sample.ready
                  ++ [CreateConversation (js "New Conversation 1");
                      UploadDocument [] Sample.report] /\
  documents s5 = documents Sample.ready.
Proof. vm_compute. repeat split. Qed.

(** C7 (amended): when [ensureActiveConversation] yields a conversation id
    that is not the empty string and the upload request then fails, exactly
    one document is appended: its id is [String(Date.now())], its name and
    size are the file's, and it is included.  When
    [ensureActiveConversation] fails nothing is appended and no upload
    request is sent. *)
Theorem upload_fallback (st st2 : State) (file : File)
  (res : EnsureConversationResult) (e : Thrown) (nowId now : Z) :
  conversationId res <> [] ->
  (let '(sent, st1) := handleUploadDocument_ensured file (Fulfilled res) nowId now st in
   sent = Some (conversationId res) /\
   documents st1 = documents st /\
   requests st1 = requests st ++ [UploadDocument (conversationId res) file]) /\
  documents
    (handleUploadDocument_uploaded (conversationId res) file (Rejected e) nowId now st2)
  = documents st2
      ++ [mkDocument (numberToString nowId) (conversationId res) (file_name file)
            (Some (file_bytes file)) (Iso now) true None] /\
  (let '(sent, st1) := handleUploadDocument_ensured file (Rejected e) nowId now st in
   sent = None /\ documents st1 = documents st /\ requests st1 = requests st).
Proof.
  intros Hid. split; [|split].
  - cbn. auto.
  - cbn. destruct (conversationId res) as [|c t]; [congruence|]. reflexivity.
  - cbn. auto.
Qed.

Lemma upload_fallback_witness :
  documents
    (handleUploadDocument_uploaded (js "a") Sample.report (Rejected NotAnError) 12 13
       Sample.loaded)
  = [Sample.docA; Sample.docA';
     mkDocument (js "12") (js "a") (js "report.pdf") (Some 2048%Z) (Iso 13) true None].
Proof.
  refine (proj1 (proj2
    (upload_fallback Sample.loaded Sample.loaded Sample.report (mkEnsured (js "a") false)
       NotAnError 12 13 _))).
  discriminate.
Defined.

End Documents.

(** ** Messages: the send path *)

Section SendPath.

Variables (content' : jsstring) (tId tUser tReply tMockId tMock : Z).


End SendPath.


(** ** Single-flight creation *)

Section SingleFlight.

Lemma nth_error_setNth {A} (l : list A) n x :
  n < length l -> nth_error (setNth n x l) n = Some x.
Proof.
  revert n; induction l as [|h t IH]; intros n Hn; [cbn in Hn; lia|].
  destruct n as [|n]; cbn; [reflexivity|]. apply IH. cbn in Hn. lia.
Qed.

Lemma length_setNth {A} (l : list A) n x : length (setNth n x l) = length l.
Proof.
  revert n; induction l as [|h t IH]; intros n; [destruct n; reflexivity|].
  destruct n; cbn; [reflexivity|]. rewrite IH. reflexivity.
Qed.

Lemma nth_error_last {A} (l : list A) x : nth_error (l ++ [x]) (length l) = Some x.
Proof. rewrite nth_error_app2, Nat.sub_diag by lia. reflexivity. Qed.

Lemma falsy_selection r :
  truthy (selectedConversationId r) = false ->
  selectedConversationId r = None \/ selectedConversationId r = Some [].
Proof. destruct (selectedConversationId r) as [[|c t]|]; cbn; auto; discriminate. Qed.

(** The first caller: the request leaves and the promise is cached. *)
Lemma ensure_starts r seedTitle st :
  truthy (selectedConversationId r) = false ->
  conversationCreationRef st = None ->
  let fallbackTitle :=
    deriveConversationTitle seedTitle (Z.of_nat (length (conversations r)) + 1) in
  ensureActiveConversation r seedTitle st
  = (Pending (length (creations st)),
     conversationCreationRef_set (Some (length (creations st)))
       (withCreations (creations st ++ [CreationPending fallbackTitle (isMobile r)])
          (issue (CreateConversation fallbackTitle) st))).
Proof.
  intros Hsel Href. unfold ensureActiveConversation. rewrite Href.
  destruct (falsy_selection r Hsel) as [-> | ->]; reflexivity.
Qed.

(** Every further caller finds the cached promise and changes nothing. *)
Lemma ensure_joins r seedTitle st p :
  truthy (selectedConversationId r) = false ->
  conversationCreationRef st = Some p ->
  ensureActiveConversation r seedTitle st = (Pending p, st).
Proof.
  intros Hsel Href. unfold ensureActiveConversation. rewrite Href.
  destruct (falsy_selection r Hsel) as [-> | ->]; reflexivity.
Qed.

Lemma ensureAll_joins callers st p :
  Forall (fun c => truthy (selectedConversationId (fst c)) = false) callers ->
  conversationCreationRef st = Some p ->
  ensureAll callers st = (repeat (Pending p) (length callers), st).
Proof.
  intros Hall Href. induction Hall as [|[r seedTitle] rest Hr _ IH]; [reflexivity|].
  cbn [ensureAll length repeat]. rewrite (ensure_joins r seedTitle st p Hr Href), IH.
  reflexivity.
Qed.

Lemma creationSettled_pending p response now st fallbackTitle mobile :
  nth_error (creations st) p = Some (CreationPending fallbackTitle mobile) ->
  let st' := creationSettled p response now st in
  nth_error (creations st') p = Some (CreationSettled (creationResult response)) /\
  conversationCreationRef st' = conversationCreationRef st /\
  requests st' = requests st /\
  length (creations st') = length (creations st).
Proof.
  intros Hp. assert (Hlt : p < length (creations st)).
  { apply nth_error_Some. congruence. }
  unfold creationSettled. rewrite Hp.
  destruct response as [id|e]; cbn.
  - destruct mobile; cbn; rewrite (nth_error_setNth _ _ _ Hlt), length_setNth; auto.
  - rewrite (nth_error_setNth _ _ _ Hlt), length_setNth; auto.
Qed.

(** A caller that resumes gets the promise's value; the token is cleared if
    it still is this promise. *)
Lemma resumed_settled p st v :
  nth_error (creations st) p = Some (CreationSettled v) ->
  exists st',
    ensureActiveConversation_resumed p st = Some (v, st') /\
    creations st' = creations st /\ requests st' = requests st /\
    conversationCreationRef st'
    = match conversationCreationRef st with
      | Some q => if q =? p then None else Some q
      | None => None
      end.
Proof.
  intros Hp. unfold ensureActiveConversation_resumed. rewrite Hp.
  eexists. split; [reflexivity|].
  destruct (conversationCreationRef st) as [q|] eqn:Hq; [|rewrite Hq; auto].
  destruct (q =? p); cbn; auto.
Qed.

Lemma resumeAll_settled n p st v :
  nth_error (creations st) p = Some (CreationSettled v) ->
  conversationCreationRef st = Some p \/ conversationCreationRef st = None ->
  exists st',
    resumeAll n p st = (repeat (Some v) n, st') /\
    requests st' = requests st /\
    creations st' = creations st /\
    conversationCreationRef st'
    = match n with O => conversationCreationRef st | S _ => None end.
Proof.
  revert st; induction n as [|n IH]; intros st Hp Href.
  - exists st. cbn. auto.
  - destruct (resumed_settled p st v Hp) as [st1 [H1 [Hc [Hr Hk]]]].
    assert (Href1 : conversationCreationRef st1 = None).
    { rewrite Hk. destruct Href as [-> | ->]; [rewrite Nat.eqb_refl|]; reflexivity. }
    assert (Hp1 : nth_error (creations st1) p = Some (CreationSettled v)) by congruence.
    destruct (IH st1 Hp1 (or_intror Href1)) as [st2 [H2 [Hr2 [Hc2 Hk2]]]].
    exists st2. cbn [resumeAll repeat]. rewrite H1, H2.
    repeat split; try congruence.
    rewrite Hk2. destruct n; auto.
Qed.

(** C1.  [first :: rest] are the concurrent callers, none of which sees a
    selected conversation, and no creation is cached when the first one
    calls.  Their calls send one create request, for the title derived from
    the first caller's seed, and all of them await the same promise.  When
    the request settles no further request is sent; every caller resumes
    with the same value: the new conversation id with [created = true], or
    the error.  After that the cached promise is cleared, and a later call
    that still sees no selection starts a new creation. *)
Theorem single_flight (first : State * option jsstring)
  (rest : list (State * option jsstring)) (st : State)
  (response : Settled jsstring) (now : Z) :
  conversationCreationRef st = None ->
  Forall (fun c => truthy (selectedConversationId (fst c)) = false) (first :: rest) ->
  let callers := first :: rest in
  let p := length (creations st) in
  let fallbackTitle :=
    deriveConversationTitle (snd first)
      (Z.of_nat (length (conversations (fst first))) + 1) in
  let '(awaited, s1) := ensureAll callers st in
  let s2 := creationSettled p response now s1 in
  let '(results, s3) := resumeAll (length callers) p s2 in
  awaited = repeat (Pending p) (length callers) /\
  requests s1 = requests st ++ [CreateConversation fallbackTitle] /\
  conversationCreationRef s1 = Some p /\
  requests s3 = requests s1 /\
  results = repeat (Some (creationResult response)) (length callers) /\
  conversationCreationRef s3 = None /\
  (forall r seedTitle,
     truthy (selectedConversationId r) = false ->
     let '(a, s4) := ensureActiveConversation r seedTitle s3 in
     a = Pending (S p) /\
     requests s4
     = requests s3
         ++ [CreateConversation
               (deriveConversationTitle seedTitle
                  (Z.of_nat (length (conversations r)) + 1))]).
Proof.
  intros Href Hall. destruct first as [r0 seed0]. cbn zeta. cbn [fst snd].
  inversion Hall as [|? ? Hr0 Hrest]; subst. cbn [fst] in Hr0.
  cbn [ensureAll]. rewrite (ensure_starts r0 seed0 st Hr0 Href). cbn zeta.
  set (title0 := deriveConversationTitle seed0 _).
  set (s1 := conversationCreationRef_set _ _).
  assert (Href1 : conversationCreationRef s1 = Some (length (creations st)))
    by reflexivity.
  rewrite (ensureAll_joins rest s1 _ Hrest Href1).
  assert (Hp1 : nth_error (creations s1) (length (creations st))
                = Some (CreationPending title0 (isMobile r0))).
  { subst s1. cbn. apply nth_error_last. }
  destruct (creationSettled_pending _ response now _ _ _ Hp1)
    as [Hp2 [Href2 [Hreq2 Hlen2]]].
  set (s2 := creationSettled _ response now s1) in *.
  rewrite Href1 in Href2.
  destruct (resumeAll_settled (length ((r0, seed0) :: rest)) _ _ _ Hp2 (or_introl Href2))
    as [s3 [Hres [Hreq3 [Hc3 Href3]]]].
  rewrite Hres. cbn [length] in Href3.
  repeat split; try reflexivity; try congruence.
  - intros r seedTitle Hr.
    rewrite (ensure_starts r seedTitle s3 Hr Href3). cbn zeta.
    split; [|reflexivity].
    f_equal. rewrite Hc3, Hlen2. subst s1. cbn. rewrite length_app. cbn. lia.
Qed.

End SingleFlight.

(** A message send and a document upload that both need a conversation, on
    [Sample.ready], where none is selected; the create request is answered
    with the id "c1". *)
Lemma single_flight_witness :
  let first := (Sample.ready, Some (js "hello")) in
  let rest := [(Sample.ready, @None jsstring)] in
  let st := Sample.ready in
  let response := Fulfilled (js "c1") in
  let now := 7%Z in
  let callers := first :: rest in
  let p := length (creations st) in
  let fallbackTitle :=
    deriveConversationTitle (snd first)
      (Z.of_nat (length (conversations (fst first))) + 1) in
  let '(awaited, s1) := ensureAll callers st in
  let s2 := creationSettled p response now s1 in
  let '(results, s3) := resumeAll (length callers) p s2 in
  awaited = repeat (Pending p) (length callers) /\
  requests s1 = requests st ++ [CreateConversation fallbackTitle] /\
  conversationCreationRef s1 = Some p /\
  requests s3 = requests s1 /\
  results = repeat (Some (creationResult response)) (length callers) /\
  conversationCreationRef s3 = None /\
  (forall r seedTitle,
     truthy (selectedConversationId r) = false ->
     let '(a, s4) := ensureActiveConversation r seedTitle s3 in
     a = Pending (S p) /\
     requests s4
     = requests s3
         ++ [CreateConversation
               (deriveConversationTitle seedTitle
                  (Z.of_nat (length (conversations r)) + 1))]).
Proof.
  assert (H : Forall (fun c => truthy (selectedConversationId (fst c)) = false)
                [(Sample.ready, Some (js "hello")); (Sample.ready, None)])
    by (repeat constructor).
  exact (single_flight (Sample.ready, Some (js "hello")) [(Sample.ready, None)]
           Sample.ready (Fulfilled (js "c1")) 7 eq_refl H).
Defined.

(** ** Selection cascade *)

Section Selection.





End Selection.

(** ** Readiness latch *)

Section Readiness.

Ltac split_cases :=
  repeat match goal with
    | |- context [match ?x with _ => _ end] =>
        lazymatch x with
        | context [match _ with _ => _ end] => fail
        | _ => destruct x eqn:?
        end
    end.

Ltac quiet :=
  unfold readiness, probes; cbn;
  rewrite ?filter_app; cbn; rewrite ?app_nil_r; try reflexivity.

Lemma handle_handleIn ev st : handle ev st = handleIn st ev st.
Proof. destruct ev; reflexivity. Qed.

(** A piece of a handler other than the readiness monitor's leaves the
    monitor alone, whatever the render it was created in and whatever the
    remote call it follows settled with. *)
Lemma handleIn_quiet r ev st :
  healthEvent ev = false ->
  readiness (handleIn r ev st) = readiness st /\
  isMountedRef (handleIn r ev st) = isMountedRef st.
Proof.
  destruct ev; try discriminate; intros _; cbn [handleIn handle];
    unfold loadConversations_settled, loadMessages_settled, loadDocuments_settled,
      handleCreateConversation, handleCreateConversation_settled,
      handleSelectConversation, handleDeleteConversation,
      handleDeleteConversation_settled, handleRenameConversation,
      handleRenameConversation_settled, creationSettled, settle,
      ensureActiveConversation_resumed, handleSendMessage,
      handleSendMessage_ensured, handleSendMessage_replied,
      handleSendMessage_failed, offlineReply, handleUploadDocument,
      handleUploadDocument_ensured, handleUploadDocument_uploaded,
      handleUploadDocument_failed, handleDeleteDocument, handleDeleteDocument_settled,
      handleToggleDocumentInclude, handleToggleDocumentInclude_settled,
      ensureActiveConversation;
    split_cases; repeat split; quiet.
Qed.

Lemma runHealthCheck_ready r st :
  backendReady (runHealthCheck r st) = backendReady st.
Proof.
  unfold runHealthCheck, healthPaths, runHealthCheck_loop.
  split_cases; reflexivity.
Qed.

(** The guard holds back the [runHealthCheck] of a render that saw
    [backendReady]. *)
Lemma runHealthCheck_guard r st : backendReady r = true -> runHealthCheck r st = st.
Proof. intros H. unfold runHealthCheck. rewrite H. reflexivity. Qed.

(** It lets the one of an earlier render through, whatever the cell holds
    by now. *)
Lemma runHealthCheck_stale r st :
  backendReady r = false -> healthCheckInFlightRef st = false ->
  isMountedRef st = true ->
  probes (runHealthCheck r st) = probes st ++ [HealthProbe (js "/health")] /\
  healthCheckInFlightRef (runHealthCheck r st) = true /\
  healthRun (runHealthCheck r st)
  = Some (mkHealthRun (js "/health") [js "/"] (js "Unable to reach backend")).
Proof.
  intros Hr Hf Hm. unfold runHealthCheck. rewrite Hr, Hf, Hm. cbn [orb negb].
  unfold healthPaths, runHealthCheck_loop, probes, issue. cbn.
  rewrite Hm. cbn. rewrite filter_app. repeat split; reflexivity.
Qed.

Lemma fetched_keeps response st :
  backendReady st = true -> backendReady (runHealthCheck_fetched response st) = true.
Proof.
  intros H. unfold runHealthCheck_fetched, runHealthCheck_loop, runHealthCheck_finish.
  split_cases; cbn; auto.
Qed.

(** No piece sets [backendReady] back. *)
Lemma handleIn_ready r ev st :
  backendReady st = true -> backendReady (handleIn r ev st) = true.
Proof.
  intros H. destruct (healthEvent ev) eqn:He.
  - destruct ev; try discriminate; cbn [handleIn handle].
    + unfold intervalTick. destruct (healthInterval st); [|exact H].
      rewrite runHealthCheck_ready. exact H.
    + destruct (backendReady r || backendChecking r); [exact H|].
      rewrite runHealthCheck_ready. exact H.
    + apply fetched_keeps, H.
    + exact H.
  - destruct (handleIn_quiet r ev st He) as [Hq _].
    unfold readiness in Hq. congruence.
Qed.

(** Neither does a render: its effects write other cells. *)
Lemma commit_backendReady before after :
  backendReady (commit before after) = backendReady after.
Proof.
  unfold commit, healthEffect_cleanup, loadConversations, loadDocuments, loadMessages.
  split_cases; cbn; rewrite ?runHealthCheck_ready; cbn; congruence.
Qed.

(** A render in which [backendReady] did not change re-runs no health
    effect. *)
Lemma commit_quiet before after :
  backendReady before = backendReady after ->
  readiness (commit before after) = readiness after.
Proof.
  intros H. unfold commit. rewrite H, Bool.eqb_reflx. cbn [negb].
  unfold loadConversations, loadDocuments, loadMessages.
  split_cases; quiet.
Qed.

(** The render in which [backendReady] became true removes the interval. *)
Lemma commit_latch before after :
  backendReady before = false -> backendReady after = true ->
  isMountedRef after = true ->
  readiness (commit before after) = (true, healthRun after, false, probes after).
Proof.
  intros Hb Ha Hm. unfold commit. rewrite Hb, Ha, Hm. cbn [negb Bool.eqb].
  unfold healthEffect_cleanup, loadConversations, loadDocuments, loadMessages.
  split_cases; quiet; rewrite Ha; reflexivity.
Qed.

(** C3, where the code departs from it.  The component is mounted and the
    first probe of [/health] is answered with status 200: [backendReady] is
    set, and the [finally] block releases [healthCheckInFlightRef].  The
    interval is removed by the clean-up of the effect only, which runs with
    a later render.  When the interval fires before that, its callback, the
    [runHealthCheck] of the render in which [backendReady] was false, passes
    the guard and sends a second probe of [/health], and a probe of [/] when
    that one fails; the failure is then recorded in [backendLastError] and
    [backendRetryCount] of a component that is ready.  With the render
    first, the same tick does nothing.

    The same holds from every state with the interval installed and the
    flag released, whatever [backendReady] is by now, while a
    [runHealthCheck] created by a render that saw [backendReady] returns at
    once.  The other half of the claim holds: no piece of any handler and
    no render sets [backendReady] back to false. *)
Theorem stale_tick_probes_after_ready :
  let st0 := mount false true in
  let st1 := handle (Fetched (Fulfilled 200%Z)) st0 in
  let st2 := handle Tick st1 in
  let st3 := handle (Fetched (Rejected NotAnError)) st2 in
  let st4 := handle (Fetched (Fulfilled 503%Z)) st3 in
  (backendReady st0 = false /\ probes st0 = [HealthProbe (js "/health")]) /\
  (backendReady st1 = true /\ probes st1 = probes st0 /\
   healthInterval st1 = true /\ healthCheckInFlightRef st1 = false) /\
  (backendReady st2 = true /\
   probes st2 = [HealthProbe (js "/health"); HealthProbe (js "/health")]) /\
  (backendReady st4 = true /\
   probes st4
   = [HealthProbe (js "/health"); HealthProbe (js "/health"); HealthProbe (js "/")] /\
   backendRetryCount st4 = 1%Z /\
   backendLastError st4 = Some (js "Backend responded with status 503 at /")) /\
  (healthInterval (commit st0 st1) = false /\
   handle Tick (commit st0 st1) = commit st0 st1) /\
  (forall st,
     healthInterval st = true -> healthCheckInFlightRef st = false ->
     isMountedRef st = true ->
     probes (handle Tick st) = probes st ++ [HealthProbe (js "/health")] /\
     backendReady (handle Tick st) = backendReady st) /\
  (forall r st, backendReady r = true -> runHealthCheck r st = st) /\
  (forall ev st, backendReady st = true -> backendReady (handle ev st) = true) /\
  (forall before after, backendReady (commit before after) = backendReady after).
Proof.
  cbn zeta.
  split; [split; vm_compute; reflexivity|].
  split; [repeat split; vm_compute; reflexivity|].
  split; [split; vm_compute; reflexivity|].
  split; [repeat split; vm_compute; reflexivity|].
  split; [split; vm_compute; reflexivity|].
  split; [|split; [|split]].
  - intros st Hi Hf Hm. cbn [handle]. unfold intervalTick. rewrite Hi. split.
    + apply (runHealthCheck_stale (setBackendReady false st) st eq_refl Hf Hm).
    + apply runHealthCheck_ready.
  - apply runHealthCheck_guard.
  - intros ev st H. rewrite handle_handleIn. apply handleIn_ready, H.
  - apply commit_backendReady.
Qed.

End Readiness.

(** * Further properties *)

(** ** Titles *)

Section TitleBounds.

Lemma singleSpaced_trimEnd b s : Spec.singleSpaced b s = true -> trimEnd s = s.
Proof.
  revert b; induction s as [|c r IH]; intros b H; [reflexivity|].
  rewrite singleSpaced_cons in H. rewrite trimEnd_cons.
  destruct (isWhiteSpace c).
  - apply andb_prop in H. destruct H as [H Hr]. apply andb_prop in H.
    destruct H as [_ Hne]. rewrite (IH _ Hr). destruct r; [discriminate|reflexivity].
  - rewrite (IH _ H). destruct r; reflexivity.
Qed.

Lemma trimEnd_app l r : r <> [] -> trimEnd r = r -> trimEnd (l ++ r) = l ++ r.
Proof.
  intros Hne Hr. induction l as [|c l IH]; [exact Hr|].
  cbn [app]. rewrite trimEnd_cons, IH. destruct (l ++ r) eqn:E; [|reflexivity].
  apply app_eq_nil in E. destruct E; contradiction.
Qed.

Lemma singleSpaced_head c r : Spec.singleSpaced true (c :: r) = true -> isWhiteSpace c = false.
Proof.
  rewrite singleSpaced_cons. destruct (isWhiteSpace c); [discriminate|reflexivity].
Qed.

Lemma derived_title_bounds (s : jsstring) (n : Z) :
  trim s <> [] ->
  let t := deriveConversationTitle (Some s) n in
  1 <= length t <= 60 /\ trim t = t.
Proof.
  intros Hs. cbn zeta. rewrite title_refines. unfold Spec.title. cbn [option_map].
  pose proof (normalized_singleSpaced s) as Hsp.
  rewrite <- (normalized_scan s) in *.
  destruct (replaceWhiteSpaceRuns (trim s)) as [|x xs] eqn:Hn.
  { apply replaceWs_false_nil in Hn. contradiction. }
  pose proof (singleSpaced_head _ _ Hsp) as Hx.
  assert (Hdots : trimEnd (js "...") = js "...") by reflexivity.
  assert (Hd : js "..." <> []) by discriminate.
  destruct (length (x :: xs) <=? 60) eqn:Hlen.
  - apply Nat.leb_le in Hlen. split; [cbn in *; lia|].
    unfold trim. cbn [trimStart]. rewrite Hx. apply (singleSpaced_trimEnd _ _ Hsp).
  - apply Nat.leb_gt in Hlen.
    destruct (nth 56 (x :: xs) 0 =? space)%N.
    + split.
      * rewrite length_app, firstn_length_le by lia. cbn. lia.
      * unfold trim. cbn [firstn app trimStart]. rewrite Hx.
        apply (trimEnd_app (x :: firstn 55 xs) (js "...") Hd Hdots).
    + split.
      * rewrite length_app, firstn_length_le by lia. cbn. lia.
      * unfold trim. cbn [firstn app trimStart]. rewrite Hx.
        apply (trimEnd_app (x :: firstn 56 xs) (js "...") Hd Hdots).
Qed.

(** The title derived from a seed that has a word has between 1 and 60 code
    units and no white space at either end, so it passes the rename
    dialog's own check unchanged. *)
Theorem title_bounds (s : jsstring) (n : Z) :
  trim s <> [] ->
  let t := deriveConversationTitle (Some s) n in
  1 <= length t <= 60 /\ trim t = t.
Proof. exact (derived_title_bounds s n). Qed.

Lemma title_bounds_witness :
  let t := deriveConversationTitle (Some Sample.longSeed) 1 in
  1 <= length t <= 60 /\ trim t = t.
Proof.
  apply (title_bounds Sample.longSeed 1). vm_compute. discriminate.
Defined.

End TitleBounds.

(** ** Invariants of the transition system *)

Ltac case_split :=
  repeat match goal with
    | |- context [match ?x with _ => _ end] =>
        lazymatch x with
        | context [match _ with _ => _ end] => fail
        | _ => destruct x eqn:?
        end
    end.

Ltac settle_cases :=
  cbn in *;
  repeat match goal with
    | E : ?x = _, H : context [match ?x with _ => _ end] |- _ => rewrite E in H
    end;
  cbn in *; try congruence.

Ltac unfold_handlers :=
  unfold loadConversations_settled, loadMessages_settled, loadDocuments_settled,
    handleCreateConversation, handleCreateConversation_settled,
    handleSelectConversation, handleDeleteConversation,
    handleDeleteConversation_settled, handleRenameConversation,
    handleRenameConversation_settled, creationSettled, settle,
    ensureActiveConversation_resumed, handleSendMessage,
    handleSendMessage_ensured, handleSendMessage_replied,
    handleSendMessage_failed, offlineReply, handleUploadDocument,
    handleUploadDocument_ensured, handleUploadDocument_uploaded,
    handleUploadDocument_failed, handleDeleteDocument, handleDeleteDocument_settled,
    handleToggleDocumentInclude, handleToggleDocumentInclude_settled,
    ensureActiveConversation, intervalTick, clickCheckAgain, runHealthCheck,
    runHealthCheck_fetched, runHealthCheck_loop, runHealthCheck_finish,
    healthEffect_cleanup, healthPaths.

Section Invariants.

(** The render and its effects touch neither the creation promises nor the
    cells the panels and the send path own. *)
Lemma commit_frame before after :
  creations (commit before after) = creations after /\
  conversationCreationRef (commit before after) = conversationCreationRef after /\
  isMountedRef (commit before after) = isMountedRef after /\
  isMobile (commit before after) = isMobile after /\
  isConversationsSidebarOpen (commit before after) = isConversationsSidebarOpen after /\
  isDocumentsPanelOpen (commit before after) = isDocumentsPanelOpen after.
Proof.
  unfold commit, loadConversations, loadDocuments, loadMessages.
  unfold_handlers. case_split; cbn; repeat split; congruence.
Qed.

Lemma handle_creations ev st :
  creationEvent ev = false ->
  creations (handle ev st) = creations st /\
  conversationCreationRef (handle ev st) = conversationCreationRef st.
Proof.
  destruct ev; try discriminate; intros _; cbn [handle]; unfold_handlers;
    case_split; cbn; split; congruence.
Qed.

Lemma nth_error_setNth_other {A} (l : list A) p q x :
  q <> p -> nth_error (setNth p x l) q = nth_error l q.
Proof.
  revert p q; induction l as [|h t IH]; intros p q Hne; [destruct p; reflexivity|].
  destruct p as [|p], q as [|q]; cbn; try reflexivity; try congruence.
  apply IH. congruence.
Qed.

Lemma ensure_singleFlight r seedTitle st :
  singleFlight st -> singleFlight (snd (ensureActiveConversation r seedTitle st)).
Proof.
  intros Hs. unfold ensureActiveConversation.
  destruct (conversationCreationRef st) as [p|] eqn:Href.
  { destruct (selectedConversationId r) as [[|? ?]|]; exact Hs. }
  assert (Hnew : singleFlight
            (conversationCreationRef_set (Some (length (creations st)))
               (withCreations
                  (creations st ++
                   [CreationPending
                      (deriveConversationTitle seedTitle
                         (Z.of_nat (length (conversations r)) + 1))
                      (isMobile r)])
                  (issue
                     (CreateConversation
                        (deriveConversationTitle seedTitle
                           (Z.of_nat (length (conversations r)) + 1))) st)))).
  { intros q c Hq Hc. cbn in Hq |- *.
    destruct (Nat.lt_ge_cases q (length (creations st))) as [Hlt | Hge].
    - rewrite nth_error_app1 in Hq by exact Hlt.
      specialize (Hs q c Hq Hc). congruence.
    - assert (Hlen : q < length (creations st ++ [CreationPending
                (deriveConversationTitle seedTitle
                   (Z.of_nat (length (conversations r)) + 1)) (isMobile r)])).
      { apply nth_error_Some. congruence. }
      rewrite length_app in Hlen. cbn in Hlen. f_equal. lia. }
  destruct (selectedConversationId r) as [[|? ?]|]; cbn [snd]; auto.
Qed.

Lemma creationSettled_singleFlight p response now st :
  singleFlight st -> singleFlight (creationSettled p response now st).
Proof.
  intros Hs. unfold creationSettled.
  destruct (nth_error (creations st) p) as [[fallbackTitle mobile|v]|] eqn:Hp;
    try exact Hs.
  assert (Hgen : forall v st',
            creations st' = creations st ->
            conversationCreationRef st' = conversationCreationRef st ->
            singleFlight (settle p v st')).
  { intros v st' Hc Hr q c Hq Hpend. unfold settle in *. cbn in *.
    rewrite Hc in Hq. rewrite Hr.
    destruct (Nat.eq_dec q p) as [-> | Hne].
    - rewrite nth_error_setNth in Hq by (apply nth_error_Some; congruence).
      injection Hq as <-. discriminate.
    - rewrite nth_error_setNth_other in Hq by exact Hne. exact (Hs q c Hq Hpend). }
  destruct response as [id|e]; [|apply Hgen; reflexivity].
  destruct mobile; apply Hgen; reflexivity.
Qed.

Lemma resumed_singleFlight p st :
  singleFlight st ->
  singleFlight
    (match ensureActiveConversation_resumed p st with
     | Some (_, st') => st'
     | None => st
     end).
Proof.
  intros Hs. unfold ensureActiveConversation_resumed.
  destruct (nth_error (creations st) p) as [[fallbackTitle mobile|v]|] eqn:Hp;
    try exact Hs.
  destruct (conversationCreationRef st) as [current|] eqn:Href; [|exact Hs].
  destruct (current =? p) eqn:E; [|exact Hs].
  apply Nat.eqb_eq in E. subst current.
  intros q c Hq Hpend. cbn in Hq |- *.
  specialize (Hs q c Hq Hpend). rewrite Href in Hs. injection Hs as <-.
  rewrite Hp in Hq. injection Hq as <-. discriminate.
Qed.

Lemma singleFlight_frame st st' :
  creations st' = creations st ->
  conversationCreationRef st' = conversationCreationRef st ->
  singleFlight st -> singleFlight st'.
Proof. unfold singleFlight. intros -> ->. auto. Qed.

Lemma handle_singleFlight ev st : singleFlight st -> singleFlight (handle ev st).
Proof.
  intros Hs. destruct (creationEvent ev) eqn:He.
  - destruct ev; try discriminate; cbn [handle].
    + apply creationSettled_singleFlight, Hs.
    + apply resumed_singleFlight, Hs.
    + unfold handleSendMessage. destruct (sendingMessage st); [exact Hs|].
      match goal with
      | |- context [ensureActiveConversation st (Some ?c) ?s] =>
          pose proof (ensure_singleFlight st (Some c) s) as H;
          destruct (ensureActiveConversation st (Some c) s) as [a s1]
      end.
      cbn [snd] in *. apply H. apply (singleFlight_frame st); auto.
    + apply ensure_singleFlight, Hs.
  - destruct (handle_creations ev st He) as [Hc Hr].
    apply (singleFlight_frame st); auto.
Qed.

Lemma run_singleFlight evs st : singleFlight st -> singleFlight (run st evs).
Proof.
  revert st; induction evs as [|ev evs IH]; intros st Hs; [exact Hs|].
  cbn. apply IH. unfold step.
  destruct (commit_frame st (handle ev st)) as [Hc [Hr _]].
  apply (singleFlight_frame (handle ev st)); auto.
  apply handle_singleFlight, Hs.
Qed.

(** At any moment of any run of the component at most one creation of a
    conversation is in flight, and it is the one cached in
    [conversationCreationRef]: with nothing cached, none is in flight. *)
Theorem creation_single_flight (mobile signedIn : bool) (evs : list Event) :
  let s := run (mount mobile signedIn) evs in
  (forall q c,
     nth_error (creations s) q = Some c -> creationPending c = true ->
     conversationCreationRef s = Some q) /\
  (forall q1 q2 c1 c2,
     nth_error (creations s) q1 = Some c1 -> creationPending c1 = true ->
     nth_error (creations s) q2 = Some c2 -> creationPending c2 = true ->
     q1 = q2) /\
  (conversationCreationRef s = None ->
   forallb (fun c => negb (creationPending c)) (creations s) = true).
Proof.
  cbn zeta.
  assert (Hs : singleFlight (run (mount mobile signedIn) evs)).
  { apply run_singleFlight. intros q c Hq _.
    destruct mobile, signedIn, q; discriminate. }
  split; [exact Hs|]. split.
  - intros q1 q2 c1 c2 H1 P1 H2 P2.
    pose proof (Hs _ _ H1 P1) as E1. pose proof (Hs _ _ H2 P2) as E2. congruence.
  - intros Href. apply forallb_forall. intros c Hin.
    destruct (creationPending c) eqn:Hp; [|reflexivity].
    apply In_nth_error in Hin. destruct Hin as [q Hq].
    pose proof (Hs _ _ Hq Hp). congruence.
Qed.

Lemma commit_health before after :
  busy after -> busy (commit before after).
Proof.
  unfold busy, commit, loadConversations, loadDocuments, loadMessages.
  unfold_handlers. intros H. case_split; settle_cases.
Qed.

Lemma handle_busy ev st : busy st -> busy (handle ev st).
Proof.
  unfold busy. intros H. destruct ev; cbn [handle]; unfold_handlers;
    case_split; settle_cases.
Qed.

Lemma run_busy evs st : busy st -> busy (run st evs).
Proof.
  revert st; induction evs as [|ev evs IH]; intros st Hs; [exact Hs|].
  cbn. apply IH. unfold step. apply commit_health, handle_busy, Hs.
Qed.

(** At any moment of any run the busy flag [healthCheckInFlightRef] is set
    exactly when a health check is suspended at a probe, and then a further
    call of [runHealthCheck], a tick of the interval and a click on "Check
    again now" send no probe: probes never overlap. *)
Theorem health_check_exclusive (mobile signedIn : bool) (evs : list Event) :
  let s := run (mount mobile signedIn) evs in
  (healthCheckInFlightRef s = true <-> healthRun s <> None) /\
  (healthRun s <> None ->
   (forall r, runHealthCheck r s = s) /\
   handle Tick s = s /\
   requests (handle CheckAgain s) = requests s).
Proof.
  cbn zeta.
  assert (Hb : busy (run (mount mobile signedIn) evs)).
  { apply run_busy. destruct mobile, signedIn; reflexivity. }
  unfold busy in Hb. split.
  - rewrite Hb. destruct (healthRun _); split; congruence.
  - intros Hrun.
    assert (Hf : healthCheckInFlightRef (run (mount mobile signedIn) evs) = true).
    { rewrite Hb. destruct (healthRun _); congruence. }
    assert (Hcall : forall r, runHealthCheck r (run (mount mobile signedIn) evs)
                              = run (mount mobile signedIn) evs).
    { intros r. unfold runHealthCheck. rewrite Hf, orb_true_r. reflexivity. }
    split; [exact Hcall|]. split.
    + cbn [handle]. unfold intervalTick. rewrite Hcall.
      destruct (healthInterval _); reflexivity.
    + cbn [handle]. unfold clickCheckAgain. rewrite Hcall.
      destruct (_ || _); reflexivity.
Qed.

Lemma handle_unmounted ev st :
  isMountedRef st = false ->
  isMountedRef (handle ev st) = false /\
  readinessCells (handle ev st) = readinessCells st.
Proof.
  unfold readinessCells. intros H. destruct ev; cbn [handle]; unfold_handlers;
    case_split; cbn in *; rewrite ?H in *; cbn in *; split; congruence.
Qed.

(** The liveness flag: once the component is unmounted no run changes
    [backendReady], [backendChecking], [backendRetryCount] or
    [backendLastError] any more, whatever the probes in flight settle
    with. *)
Theorem unmounted_readiness_frozen (st : State) (evs : list Event) :
  isMountedRef st = false ->
  readinessCells (run st evs) = readinessCells st /\
  isMountedRef (run st evs) = false.
Proof.
  revert st; induction evs as [|ev evs IH]; intros st Hm; [auto|].
  change (run st (ev :: evs)) with (run (step st ev) evs).
  destruct (handle_unmounted ev st Hm) as [Hm' Hc].
  assert (Hstep : step st ev = handle ev st).
  { unfold step, commit. rewrite Hm'. reflexivity. }
  rewrite Hstep. destruct (IH _ Hm') as [H1 H2]. split; congruence.
Qed.

(** Unmounted while the first probe is in flight; both probes then fail. *)
Lemma unmounted_readiness_frozen_witness :
  let st := run (mount false true) [Unmount] in
  readinessCells
    (run st [Fetched (Fulfilled 503%Z); Fetched (Rejected NotAnError); Tick])
  = (false, true, 0%Z, None).
Proof.
  exact (proj1 (unmounted_readiness_frozen (run (mount false true) [Unmount])
                  [Fetched (Fulfilled 503%Z); Fetched (Rejected NotAnError); Tick]
                  eq_refl)).
Defined.

Lemma finish_reachable e st :
  isMountedRef st = true ->
  let s := runHealthCheck_finish true e st in
  requests s = requests st /\ healthCheckInFlightRef s = false /\
  healthRun s = None /\ readinessCells s = (true, false, 0%Z, None).
Proof.
  intros Hm. unfold runHealthCheck_finish, readinessCells.
  cbn. rewrite ?Hm. cbn. rewrite ?Hm. cbn. repeat split.
Qed.

Lemma finish_unreachable e st :
  isMountedRef st = true ->
  let s := runHealthCheck_finish false e st in
  requests s = requests st /\ healthCheckInFlightRef s = false /\
  healthRun s = None /\
  readinessCells s
  = (backendReady st, false, (backendRetryCount st + 1)%Z, Some e).
Proof.
  intros Hm. unfold runHealthCheck_finish, readinessCells.
  cbn. rewrite ?Hm. cbn. rewrite ?Hm. cbn. repeat split.
Qed.

Lemma fetched_step response st run :
  healthRun st = Some run ->
  runHealthCheck_fetched response st
  = if reachableBy response
    then runHealthCheck_finish true (lastErrorMessage run) st
    else runHealthCheck_loop (pathsLeft run) (probeError (probing run) response) st.
Proof.
  intros H. unfold runHealthCheck_fetched. rewrite H.
  destruct response as [status|e]; cbn; [destruct (status <? 500)%Z|]; reflexivity.
Qed.

(** One health check from start to end, nothing interleaved.  Started in a
    mounted component that is neither ready nor checking, it probes
    "/health"; an answer below 500 ends it: ready, no error, retry count 0.
    Otherwise it probes "/", and that answer decides: below 500 as before;
    else the component stays as ready as it was, the retry count grows by
    one and the last error is the one of the second probe.  Either way the
    check sends at most these two probes and releases the busy flag. *)
Theorem health_check_protocol (r st : State) (first second : Settled Z) :
  backendReady r = false -> healthCheckInFlightRef st = false ->
  isMountedRef st = true ->
  let s1 := runHealthCheck r st in
  let s2 := runHealthCheck_fetched first s1 in
  let s3 := runHealthCheck_fetched second s2 in
  requests s1 = requests st ++ [HealthProbe (js "/health")] /\
  healthCheckInFlightRef s1 = true /\ backendChecking s1 = true /\
  (if reachableBy first then
     requests s2 = requests s1 /\
     healthCheckInFlightRef s2 = false /\ healthRun s2 = None /\
     readinessCells s2 = (true, false, 0%Z, None)
   else
     requests s2 = requests s1 ++ [HealthProbe (js "/")] /\
     healthCheckInFlightRef s2 = true /\
     readinessCells s2 = (backendReady st, true, backendRetryCount st, backendLastError st) /\
     requests s3 = requests s2 /\
     healthCheckInFlightRef s3 = false /\ healthRun s3 = None /\
     readinessCells s3
     = (if reachableBy second then (true, false, 0%Z, None)
        else (backendReady st, false, (backendRetryCount st + 1)%Z,
              Some (probeError (js "/") second)))).
Proof.
  intros Hr Hf Hm. cbn zeta.
  assert (E1 : runHealthCheck r st
               = withHealthRun
                   (Some (mkHealthRun (js "/health") [js "/"]
                            (js "Unable to reach backend")))
                   (issue (HealthProbe (js "/health"))
                      (setBackendChecking true (healthCheckInFlightRef_set true st)))).
  { unfold runHealthCheck. rewrite Hr, Hf, Hm. cbn [orb negb].
    cbn [isMountedRef healthCheckInFlightRef_set]. rewrite Hm. reflexivity. }
  rewrite E1. set (s1 := withHealthRun _ _).
  assert (R1 : requests s1 = requests st ++ [HealthProbe (js "/health")]) by reflexivity.
  assert (M1 : isMountedRef s1 = isMountedRef st) by reflexivity.
  assert (C1 : readinessCells s1
               = (backendReady st, true, backendRetryCount st, backendLastError st))
    by reflexivity.
  assert (H1 : healthRun s1
               = Some (mkHealthRun (js "/health") [js "/"]
                         (js "Unable to reach backend"))) by reflexivity.
  assert (F1 : healthCheckInFlightRef s1 = true) by reflexivity.
  assert (B1 : backendChecking s1 = true) by reflexivity.
  clearbody s1. rewrite <- M1 in Hm. clear M1.
  split; [exact R1|]. split; [exact F1|]. split; [exact B1|].
  rewrite (fetched_step first s1 _ H1). cbn [lastErrorMessage pathsLeft probing].
  destruct (reachableBy first).
  - destruct (finish_reachable (js "Unable to reach backend") s1) as [A [B [C D]]];
      [congruence|]. auto.
  - cbn [runHealthCheck_loop]. set (s2 := withHealthRun _ _).
    assert (R2 : requests s2 = requests s1 ++ [HealthProbe (js "/")]) by reflexivity.
    assert (M2 : isMountedRef s2 = isMountedRef s1) by reflexivity.
    assert (C2 : readinessCells s2 = readinessCells s1) by reflexivity.
    assert (H2 : healthRun s2
                 = Some (mkHealthRun (js "/") [] (probeError (js "/health") first)))
      by reflexivity.
    assert (F2 : healthCheckInFlightRef s2 = healthCheckInFlightRef s1) by reflexivity.
    assert (K2 : backendReady s2 = backendReady st /\
                 backendRetryCount s2 = backendRetryCount st).
    { unfold readinessCells in C1, C2. split; congruence. }
    clearbody s2. destruct K2 as [K2 K2'].
    split; [exact R2|]. split; [congruence|]. split; [congruence|].
    rewrite (fetched_step second s2 _ H2). cbn [lastErrorMessage pathsLeft probing].
    destruct (reachableBy second).
    + destruct (finish_reachable (probeError (js "/health") first) s2)
        as [A [B [C D]]]; [congruence|]. auto.
    + cbn [runHealthCheck_loop].
      destruct (finish_unreachable (probeError (js "/") second) s2)
        as [A [B [C D]]]; [congruence|].
      rewrite D, K2, K2'. auto.
Qed.

(** The cold start of the sample: 502 on "/health", then 200 on "/". *)
Lemma health_check_protocol_witness :
  let st := initialState false true in
  let s3 :=
    runHealthCheck_fetched (Fulfilled 200%Z)
      (runHealthCheck_fetched (Fulfilled 502%Z) (runHealthCheck st st)) in
  requests (runHealthCheck st st) = requests st ++ [HealthProbe (js "/health")] /\
  healthCheckInFlightRef (runHealthCheck st st) = true.
Proof.
  destruct (health_check_protocol (initialState false true) (initialState false true)
              (Fulfilled 502%Z) (Fulfilled 200%Z) eq_refl eq_refl eq_refl)
    as [H1 [H2 _]].
  split; assumption.
Defined.

End Invariants.

(** ** Panels *)

Section Panels.

Lemma handle_overlays ev st :
  isMobile (handle ev st) = isMobile st /\
  isDocumentsPanelOpen (handle ev st) = isDocumentsPanelOpen st /\
  (isConversationsSidebarOpen (handle ev st) = true ->
   isConversationsSidebarOpen st = true).
Proof.
  destruct ev; cbn [handle]; unfold_handlers; case_split; cbn in *;
    repeat split; congruence.
Qed.

Lemma uiStep_overlays st ev :
  isMobile st = true ->
  isConversationsSidebarOpen st && isDocumentsPanelOpen st = false ->
  isMobile (uiStep st ev) = true /\
  isConversationsSidebarOpen (uiStep st ev) && isDocumentsPanelOpen (uiStep st ev)
  = false.
Proof.
  intros Hm Hx. destruct ev as [ev| |]; cbn [uiStep]; unfold step.
  - destruct (commit_frame st (handle ev st)) as [_ [_ [_ [H1 [H2 H3]]]]].
    destruct (handle_overlays ev st) as [G1 [G2 G3]].
    rewrite H1, H2, H3, G1, G2. split; [exact Hm|].
    destruct (isConversationsSidebarOpen (handle ev st)) eqn:E; [|reflexivity].
    rewrite (G3 eq_refl) in Hx. exact Hx.
  - destruct (commit_frame st (toggleConversationsSidebar st st))
      as [_ [_ [_ [H1 [H2 H3]]]]].
    rewrite H1, H2, H3. unfold toggleConversationsSidebar. rewrite Hm.
    revert Hx.
    destruct (isConversationsSidebarOpen st); cbn;
      destruct (isDocumentsPanelOpen st);
      cbn; intros Hx; split; solve [exact Hm | reflexivity | discriminate Hx].
  - destruct (commit_frame st (toggleDocumentsPanel st st))
      as [_ [_ [_ [H1 [H2 H3]]]]].
    rewrite H1, H2, H3. unfold toggleDocumentsPanel. rewrite Hm.
    revert Hx.
    destruct (isDocumentsPanelOpen st); cbn;
      destruct (isConversationsSidebarOpen st);
      cbn; intros Hx; split; solve [exact Hm | reflexivity | discriminate Hx].
Qed.

(** On a mobile screen the conversation list and the documents panel are
    never open together: both start closed, a toggle that opens one closes
    the other, and no handler opens either. *)
Theorem mobile_overlays_exclusive (signedIn : bool) (evs : list UiEvent) :
  let s := uiRun (mount true signedIn) evs in
  isMobile s = true /\
  isConversationsSidebarOpen s && isDocumentsPanelOpen s = false.
Proof.
  cbn zeta.
  assert (H0 : isMobile (mount true signedIn) = true /\
               isConversationsSidebarOpen (mount true signedIn)
               && isDocumentsPanelOpen (mount true signedIn) = false)
    by (destruct signedIn; split; reflexivity).
  generalize dependent (mount true signedIn). intros st [Hm Hx].
  revert st Hm Hx. induction evs as [|ev evs IH]; intros st Hm Hx; [auto|].
  change (uiRun st (ev :: evs)) with (uiRun (uiStep st ev) evs).
  destruct (uiStep_overlays st ev Hm Hx) as [Hm' Hx']. apply IH; assumption.
Qed.

End Panels.

(** ** Conversations: create and load *)

Section CreateAndLoad.

Variables (r st : State).

(** The "New conversation" button.  The request carries the title "New
    Conversation n", n one more than the number of conversations of the
    render that was clicked.  However the request settles, a conversation
    with that title is put first and selected, and messages and documents
    are left alone.  On success it has the server's id and the conversations
    current at that time follow it; on failure it has the id
    [String(Date.now())] and the conversations of the render follow it, so
    whatever the list gained in between is dropped. *)
Theorem create_conversation_either_way (response : Settled jsstring)
  (now nowId now' now'' : Z) :
  let s := handleCreateConversation_settled r response now nowId now' now'' st in
  requests (handleCreateConversation r st)
  = requests st ++ [CreateConversation (newConversationTitle r)] /\
  messages s = messages st /\ documents s = documents st /\
  exists c rest,
    conversations s = c :: rest /\
    title c = newConversationTitle r /\
    selectedConversationId s = Some (conversation_id c) /\
    match response with
    | Fulfilled id => conversation_id c = id /\ rest = conversations st
    | Rejected _ => conversation_id c = numberToString nowId /\ rest = conversations r
    end.
Proof.
  cbn zeta. unfold handleCreateConversation_settled. split; [reflexivity|].
  destruct response as [id|e]; [destruct (isMobile r)|]; cbn;
    (split; [reflexivity|]); (split; [reflexivity|]);
    do 2 eexists; repeat split.
Qed.

(** Loading the conversation list.  The blocking spinner is shown only by a
    load started from a render with no conversations before any load has
    settled; a load that settles, with either outcome, takes the spinner it
    showed away and no later load shows it again.  A list that arrives
    replaces the one in memory, and its first entry becomes selected exactly
    when the render that started the load had no selection. *)
Theorem load_conversations_once (response : Settled (list Conversation))
  (now now' : Z) (s' : State) :
  let spinner := fst (loadConversations r st) in
  let s1 := snd (loadConversations r st) in
  let s2 := loadConversations_settled r spinner response now now' s' in
  (spinner = true <-> conversations r = [] /\ hasLoadedConversationsRef st = false) /\
  requests s1 = requests st ++ [ListConversations] /\
  loading s1 = (if spinner then true else loading st) /\
  loading s2 = (if spinner then false else loading s') /\
  (forall r' st',
     hasLoadedConversationsRef st' = hasLoadedConversationsRef s2 ->
     fst (loadConversations r' st') = false) /\
  (forall loaded,
     response = Fulfilled loaded ->
     conversations s2 = loaded /\
     selectedConversationId s2
     = match loaded with
       | first :: _ =>
           if truthy (selectedConversationId r) then selectedConversationId s'
           else Some (conversation_id first)
       | [] => selectedConversationId s'
       end).
Proof.
  cbn zeta. unfold loadConversations, loadConversations_settled. cbn [fst snd].
  split; [|split; [|split; [|split; [|split]]]].
  - destruct (conversations r); cbn; destruct (hasLoadedConversationsRef st); cbn;
      split; intros; try discriminate; auto; destruct H; discriminate.
  - destruct ((length (conversations r) =? 0) && _); reflexivity.
  - destruct ((length (conversations r) =? 0) && _); reflexivity.
  - destruct ((length (conversations r) =? 0) && _), response as [[|c l]|e];
      cbn; try destruct (truthy (selectedConversationId r)); reflexivity.
  - intros r' st' H.
    assert (Hl : hasLoadedConversationsRef st' = true).
    { rewrite H.
      destruct ((length (conversations r) =? 0) && _), response as [[|c l]|e];
        cbn; try destruct (truthy (selectedConversationId r)); reflexivity. }
    cbn. rewrite Hl. apply andb_false_r.
  - intros loaded ->.
    destruct ((length (conversations r) =? 0) && _), loaded as [|c l];
      cbn; try destruct (truthy (selectedConversationId r)); auto.
Qed.

End CreateAndLoad.

(** ** Documents: delete; messages: a send with a conversation selected *)

Section DeleteAndSend.

Variables (r st : State).

(** Deleting a document.  With no conversation selected in the render the
    handler sends nothing.  When the request succeeds every document with the
    given id leaves the collection and the others stay, in their order; when
    it fails the state is as before but for the toast, and the handler's
    promise fulfils. *)
Theorem delete_document_frame (documentId : jsstring) (e : Thrown) :
  (truthy (selectedConversationId r) = false ->
   handleDeleteDocument r documentId st = (None, st)) /\
  (forall selected,
     selectedConversationId r = Some selected -> selected <> [] ->
     handleDeleteDocument r documentId st
     = (Some selected, issue (DeleteDocument selected documentId) st)) /\
  (let s := snd (handleDeleteDocument_settled documentId (Fulfilled tt) st) in
   (forall d, In d (documents s) <->
              In d (documents st) /\ document_id d <> documentId) /\
   documents s
   = filter (fun d => negb (eqb (document_id d) documentId)) (documents st) /\
   conversations s = conversations st /\ messages s = messages st /\
   selectedConversationId s = selectedConversationId st) /\
  handleDeleteDocument_settled documentId (Rejected e) st
  = (Fulfilled tt, toast (errorToast "Failed to delete document") st).
Proof.
  split; [|split; [|split]].
  - intros H. unfold handleDeleteDocument.
    destruct (selectedConversationId r) as [[|? ?]|]; [reflexivity|discriminate|reflexivity].
  - intros selected H Hne. unfold handleDeleteDocument. rewrite H.
    destruct selected; [congruence|reflexivity].
  - cbn. repeat split; try reflexivity.
    + apply filter_In in H. tauto.
    + apply filter_In in H. destruct H as [_ H].
      apply negb_true_iff, eqb_neq in H. exact H.
    + intros [Hin Hne]. apply filter_In. split; [exact Hin|].
      apply negb_true_iff, eqb_neq. exact Hne.
  - reflexivity.
Qed.

(** A send from a render that has a conversation selected and is not
    sending: no create request is sent and nothing is awaited; the user
    message is appended for the selected conversation and the one request
    sent posts the content to it.  A send from a render that is sending does
    nothing. *)
Theorem send_to_selected (selected content' : jsstring) (nowId now : Z) :
  selectedConversationId r = Some selected -> selected <> [] ->
  (sendingMessage r = true -> handleSendMessage r content' st = (SendIgnored, st)) /\
  (sendingMessage r = false ->
   let '(phase, s1) := handleSendMessage r content' st in
   phase = SendAwaitsEnsure (Returned (mkEnsured selected false)) /\
   s1 = setSendingMessage true st /\
   let '(phase', s2) :=
     handleSendMessage_ensured content' (Fulfilled (mkEnsured selected false))
       nowId now s1 in
   phase' = SendAwaitsReply selected /\
   requests s2 = requests st ++ [SendMessage selected content'] /\
   messages s2
   = messages st
       ++ [userMessage content' (js "temp-" ++ numberToString nowId) selected now] /\
   sendingMessage s2 = true /\
   creations s2 = creations st).
Proof.
  intros Hsel Hne. unfold handleSendMessage, ensureActiveConversation.
  rewrite Hsel. destruct selected as [|c t]; [congruence|].
  split; intros ->; [reflexivity|]. cbn. repeat split.
Qed.

End DeleteAndSend.

Lemma delete_document_frame_witness :
  handleDeleteDocument Sample.loaded (js "d1") Sample.loaded
  = (Some (js "a"), issue (DeleteDocument (js "a") (js "d1")) Sample.loaded).
Proof.
  apply (proj1 (proj2
    (delete_document_frame Sample.loaded Sample.loaded (js "d1") NotAnError))).
  - vm_compute. reflexivity.
  - discriminate.
Defined.

Lemma send_to_selected_witness :
  handleSendMessage (setSendingMessage true Sample.loaded) (js "ping") Sample.loaded
  = (SendIgnored, Sample.loaded).
Proof.
  refine (proj1 (send_to_selected (setSendingMessage true Sample.loaded) Sample.loaded
                   (js "a") (js "ping") 0 0 _ _) eq_refl).
  - vm_compute. reflexivity.
  - discriminate.
Defined.

(** ** The documents panel *)

Section Panel.



End Panel.


Section PanelDisplay.

Lemma filter_nil_forall {A} (f : A -> bool) l :
  length (filter f l) = 0 <-> forallb (fun x => negb (f x)) l = true.
Proof.
  induction l as [|x l IH]; cbn; [tauto|].
  destruct (f x); cbn; [split; discriminate | exact IH].
Qed.

(** The file input: picking nothing does nothing; if any picked file is not
    of type "application/pdf" the panel alerts and uploads none of them,
    whatever the other files are; if all are PDFs every one is passed to the
    upload handler. *)
Theorem file_change_requires_pdfs (r st : State) (files : list PickedFile)
  (os : list UploadOracle) :
  handleFileChange r [] os st = NothingPicked /\
  (forall bad, In bad files -> mimeType bad <> pdf ->
     handleFileChange r files os st = OnlyPdfAlert) /\
  (files <> [] -> (forall f, In f files -> mimeType f = pdf) ->
     handleFileChange r files os st
     = match uploadEach r files os st with
       | Some s => UploadsDone s
       | None => UploadsSuspended
       end).
Proof.
  split; [reflexivity|]. split.
  - intros bad Hin Hbad. unfold handleFileChange.
    destruct files as [|f fs]; [contradiction|].
    assert (Hf : In bad (filter (fun file => negb (eqb (mimeType file) pdf)) (f :: fs))).
    { apply filter_In. split; [exact Hin|]. apply negb_true_iff, eqb_neq, Hbad. }
    destruct (filter _ (f :: fs)) as [|x xs]; [contradiction|]. reflexivity.
  - intros Hne Hall. unfold handleFileChange. destruct files as [|f fs]; [congruence|].
    assert (Hz : length (filter (fun file => negb (eqb (mimeType file) pdf)) (f :: fs)) = 0).
    { apply filter_nil_forall, forallb_forall. intros x Hx.
      rewrite (Hall x Hx), eqb_refl. reflexivity. }
    rewrite Hz. reflexivity.
Qed.

Lemma file_change_requires_pdfs_witness :
  handleFileChange Sample.loaded
    [mkPicked Sample.report pdf; mkPicked Sample.report (js "image/png")] []
    Sample.loaded
  = OnlyPdfAlert.
Proof.
  apply (proj1 (proj2 (file_change_requires_pdfs Sample.loaded Sample.loaded
           [mkPicked Sample.report pdf; mkPicked Sample.report (js "image/png")] []))
           (mkPicked Sample.report (js "image/png"))).
  - right. left. reflexivity.
  - cbn. discriminate.
Defined.

Lemma tenths_bounds num den :
  (0 < den)%Z -> (den mod 2 = 0)%Z ->
  (- den < 2 * (den * tenths num den - 10 * num) <= den)%Z.
Proof.
  intros Hd Heven. unfold tenths.
  pose proof (Z.div_mod (10 * num + den / 2) den ltac:(lia)) as E.
  pose proof (Z.mod_pos_bound (10 * num + den / 2) den Hd) as B.
  pose proof (Z.div_mod den 2 ltac:(lia)) as E2.
  lia.
Qed.

(** The size shown for a document.  A missing size shows "Unknown size"; a
    size from 0 to 1023 bytes shows the byte count.  From 1024 bytes up to one
    mebibyte the size is shown in KB with one decimal: the figure n/10 shown
    is the multiple of 0.1 nearest to bytes/1024 (the upper one on a tie),
    and it runs from 1.0 up to 1024.0 inclusive, so "1024.0 KB" is shown
    just below one mebibyte. *)
Theorem file_size_display (bytes : Z) :
  formatFileSize None = js "Unknown size" /\
  ((0 <= bytes < 1024)%Z ->
   formatFileSize (Some bytes) = numberToString bytes ++ js " B") /\
  ((1024 <= bytes < 1024 * 1024)%Z ->
   exists n : Z,
     formatFileSize (Some bytes)
     = numberToString (n / 10)%Z ++ js "." ++ numberToString (n mod 10)%Z ++ js " KB" /\
     (10 <= n <= 10240)%Z /\
     (-512 < 1024 * n - 10 * bytes <= 512)%Z) /\
  formatFileSize (Some 1048575%Z) = js "1024.0 KB".
Proof.
  split; [reflexivity|]. split; [|split].
  - intros [_ H]. unfold formatFileSize. apply Z.ltb_lt in H. rewrite H. reflexivity.
  - intros [Hlo Hhi]. exists (tenths bytes 1024). unfold formatFileSize.
    apply Z.ltb_ge in Hlo. apply Z.ltb_lt in Hhi. rewrite Hlo, Hhi.
    apply Z.ltb_ge in Hlo. apply Z.ltb_lt in Hhi.
    split; [unfold toFixed1; cbn zeta; rewrite <- !app_assoc; reflexivity|].
    pose proof (tenths_bounds bytes 1024 ltac:(lia) eq_refl). lia.
  - vm_compute. reflexivity.
Qed.

Lemma file_size_display_witness :
  exists n : Z,
    formatFileSize (Some 2048%Z)
    = numberToString (n / 10)%Z ++ js "." ++ numberToString (n mod 10)%Z ++ js " KB" /\
    (10 <= n <= 10240)%Z /\
    (-512 < 1024 * n - 10 * 2048 <= 512)%Z.
Proof.
  apply (proj1 (proj2 (proj2 (file_size_display 2048)))). lia.
Defined.

End PanelDisplay.

(** ** Sign-up *)

Section SignupPage.

(** The sign-up form.  [signUp] is called exactly when the two passwords are
    equal and have at least 6 code units; otherwise an error is shown (the
    mismatch first) and nothing else changes.  When the promise of [signUp]
    fulfils the page navigates to "/app" and shows no error, also when the
    result carries an error message; only a rejected promise shows "Failed
    to create account".  Loading is off at the end in both cases. *)
Theorem signup_submit (r s : Signup) (result : option jsstring) (e : Thrown) :
  (fst (handleSubmit r s) = true <->
   password r = confirmPassword r /\ 6 <= length (password r)) /\
  (password r <> confirmPassword r ->
   handleSubmit r s = (false, setSignupError (js "Passwords do not match")
                                (setSignupError [] s))) /\
  (password r = confirmPassword r -> length (password r) < 6 ->
   handleSubmit r s
   = (false, setSignupError (js "Password must be at least 6 characters")
               (setSignupError [] s))) /\
  (fst (handleSubmit r s) = true ->
   let s1 := snd (handleSubmit r s) in
   signUpCalls s1 = signUpCalls s ++ [(email r, password r)] /\
   signupLoading s1 = true /\ signupError s1 = [] /\ pushed s1 = pushed s) /\
  (let s2 := handleSubmit_settled (Fulfilled result) s in
   pushed s2 = pushed s ++ [js "/app"] /\ signupError s2 = signupError s /\
   signupLoading s2 = false) /\
  (let s2 := handleSubmit_settled (Rejected e) s in
   pushed s2 = pushed s /\ signupLoading s2 = false /\
   signupError s2 = js "Failed to create account. Please try again.").
Proof.
  unfold handleSubmit.
  destruct (eqb (password r) (confirmPassword r)) eqn:E; cbn [negb].
  - apply eqb_eq in E.
    destruct (length (password r) <? 6) eqn:L; cbn [fst snd].
    + apply Nat.ltb_lt in L.
      repeat split; intros;
        solve [discriminate | lia | contradiction | reflexivity
              | match goal with H : _ /\ _ |- _ => destruct H; lia end].
    + apply Nat.ltb_ge in L.
      repeat split; intros;
        solve [discriminate | lia | contradiction | reflexivity | assumption].
  - apply eqb_neq in E. cbn [fst snd].
    repeat split; intros;
      solve [discriminate | contradiction | reflexivity
            | match goal with H : _ /\ _ |- _ => destruct H; contradiction end].
Qed.

Lemma signup_submit_witness :
  let r := mkSignup (js "a@b.c") (js "secret1") (js "secret2") [] false [] [] in
  handleSubmit r r
  = (false, setSignupError (js "Passwords do not match") (setSignupError [] r)).
Proof.
  apply (proj1 (proj2
    (signup_submit (mkSignup (js "a@b.c") (js "secret1") (js "secret2") [] false [] [])
       (mkSignup (js "a@b.c") (js "secret1") (js "secret2") [] false [] [])
       None NotAnError))).
  cbn. discriminate.
Defined.

End SignupPage.

(** ** Loads and the selection *)

Section StaleLoads.

Lemma commit_data before after :
  selectedConversationId (commit before after) = selectedConversationId after /\
  messages (commit before after) = messages after /\
  conversations (commit before after) = conversations after.
Proof.
  unfold commit, loadConversations, loadDocuments, loadMessages.
  unfold_handlers. case_split; cbn; repeat split; congruence.
Qed.

Lemma step_select st id :
  selectedConversationId (step st (ClickSelect id)) = Some id /\
  messages (step st (ClickSelect id)) = messages st.
Proof.
  unfold step. destruct (commit_data st (handle (ClickSelect id) st)) as [H1 [H2 _]].
  rewrite H1, H2. cbn [handle]. unfold handleSelectConversation.
  destruct (isMobile st); split; reflexivity.
Qed.

Lemma step_messagesLoaded st id loaded now :
  selectedConversationId (step st (MessagesLoaded id (Fulfilled loaded) now))
  = selectedConversationId st /\
  messages (step st (MessagesLoaded id (Fulfilled loaded) now)) = loaded.
Proof.
  unfold step.
  destruct (commit_data st (handle (MessagesLoaded id (Fulfilled loaded) now) st))
    as [H1 [H2 _]].
  rewrite H1, H2. split; reflexivity.
Qed.

(** A message load is applied when it settles, whatever is selected by then.
    If conversation [a] and then conversation [b] are selected and the load
    for [b] settles before the load for [a], the messages of [a] end up in
    memory while [b] is selected. *)
Theorem stale_load_overwrites (st : State) (a b : jsstring)
  (la lb : list Message) (t t' : Z) :
  let s :=
    run st [ClickSelect a; ClickSelect b;
            MessagesLoaded b (Fulfilled lb) t; MessagesLoaded a (Fulfilled la) t'] in
  selectedConversationId s = Some b /\ messages s = la.
Proof.
  cbn zeta. unfold run. cbn [fold_left].
  set (s1 := step st (ClickSelect a)).
  set (s2 := step s1 (ClickSelect b)).
  set (s3 := step s2 (MessagesLoaded b (Fulfilled lb) t)).
  destruct (step_select s1 b) as [B1 _].
  destruct (step_messagesLoaded s2 b lb t) as [C1 _].
  destruct (step_messagesLoaded s3 a la t') as [D1 D2].
  fold s2 in B1. fold s3 in C1. split; congruence.
Qed.

(** The conversation list is loaded without looking at the selection: when
    the render that started the load had a selection, it is kept, also when
    the list that arrives (or the placeholder installed on failure) does not
    contain it. *)
Theorem load_keeps_selection (r st : State) (spinner : bool)
  (response : Settled (list Conversation)) (now now' : Z) :
  truthy (selectedConversationId r) = true ->
  let s := loadConversations_settled r spinner response now now' st in
  selectedConversationId s = selectedConversationId st /\
  conversations s
  = match response with
    | Fulfilled loaded => loaded
    | Rejected _ =>
        [mkConversation (js "1") (js "Getting Started") (Iso now) (Iso now')]
    end.
Proof.
  intros H. cbn zeta. unfold loadConversations_settled.
  destruct response as [[|c l]|e], spinner; cbn; rewrite ?H; cbn; split; reflexivity.
Qed.

End StaleLoads.

(** In [Sample.loaded] "a" is selected; a reload answered with the empty
    list keeps "a" selected. *)
Lemma load_keeps_selection_witness :
  let s := loadConversations_settled Sample.loaded false (Fulfilled []) 0 0 Sample.loaded in
  selectedConversationId s = Some (js "a") /\ conversations s = [].
Proof.
  refine (load_keeps_selection Sample.loaded Sample.loaded false (Fulfilled []) 0 0 _).
  vm_compute. reflexivity.
Defined.

(** ** The chat panel and the log-in page *)

Section ChatAndLogin.

Lemma trimEnd_idempotent s : trimEnd (trimEnd s) = trimEnd s.
Proof.
  induction s as [|c r IH]; [reflexivity|].
  rewrite trimEnd_cons. destruct (trimEnd r) as [|d t] eqn:E.
  - destruct (isWhiteSpace c) eqn:Hc; [reflexivity|]. cbn. rewrite Hc. reflexivity.
  - rewrite trimEnd_cons, IH. reflexivity.
Qed.

Lemma trimStart_head s c r : trimStart s = c :: r -> isWhiteSpace c = false.
Proof.
  induction s as [|x s IH]; [discriminate|]. cbn.
  destruct (isWhiteSpace x) eqn:Hx; [exact IH|]. intros [= <- _]. exact Hx.
Qed.

Lemma trim_idempotent s : trim (trim s) = trim s.
Proof.
  unfold trim. destruct (trimStart s) as [|c r] eqn:E; [reflexivity|].
  pose proof (trimStart_head _ _ _ E) as Hc.
  rewrite (trimEnd_cons_solid _ _ Hc). cbn [trimStart]. rewrite Hc.
  rewrite (trimEnd_cons_solid _ _ Hc), trimEnd_idempotent. reflexivity.
Qed.

(** Submitting the chat input.  Input that is empty or all white space, or a
    submit while a send is under way, calls nothing and keeps the input.
    Otherwise the trimmed input is sent and the input is cleared; when no
    conversation is selected and no creation is in flight, this sends the
    create request, and the conversation's title is derived from the message
    (never "New Conversation n") and has between 1 and 60 code units. *)
Theorem chat_submit_names_conversation (input : jsstring) (r st : State) :
  (trim input = [] -> chatSubmit input r st = (None, input)) /\
  (sendingMessage r = true -> chatSubmit input r st = (None, input)) /\
  (trim input <> [] -> sendingMessage r = false ->
   truthy (selectedConversationId r) = false ->
   conversationCreationRef st = None ->
   let t :=
     deriveConversationTitle (Some (trim input))
       (Z.of_nat (length (conversations r)) + 1) in
   exists s1,
     chatSubmit input r st
     = (Some (SendAwaitsEnsure (Pending (length (creations st))), s1), []) /\
     requests s1 = requests st ++ [CreateConversation t] /\
     sendingMessage s1 = true /\
     t = Spec.title (Some input) (Z.of_nat (length (conversations r)) + 1) /\
     1 <= length t <= 60).
Proof.
  split; [|split].
  - intros H. unfold chatSubmit. rewrite H. reflexivity.
  - intros H. unfold chatSubmit. rewrite H. destruct (trim input); reflexivity.
  - intros Hin Hs Hsel Href. cbn zeta. unfold chatSubmit, handleSendMessage.
    rewrite Hs. cbn [negb].
    destruct (trim input) as [|c t0] eqn:E; [congruence|]. cbv zeta.
    match goal with
    | |- context [ensureActiveConversation r ?seed ?s0] =>
        pose proof (ensure_starts r seed s0 Hsel Href) as X
    end.
    cbv zeta in X. rewrite X.
    eexists. split; [reflexivity|]. split; [reflexivity|].
    split; [reflexivity|]. split.
    + rewrite !title_refines. unfold Spec.title. cbn [option_map].
      rewrite <- !normalized_scan, <- E, trim_idempotent. reflexivity.
    + rewrite <- E. apply derived_title_bounds. rewrite trim_idempotent. congruence.
Qed.

Lemma chat_submit_names_conversation_witness :
  chatSubmit (js "   ") Sample.ready Sample.ready = (None, js "   ").
Proof.
  apply (proj1 (chat_submit_names_conversation (js "   ") Sample.ready Sample.ready)).
  reflexivity.
Defined.

(** The log-in form navigates to "/app" only when [signIn] fulfils without
    an error message; a message that comes back is shown as it is and the
    page stays; a rejected promise shows "Failed to sign in".  Loading is
    off at the end in every case. *)
Theorem login_submit (s : Login) (message : jsstring) (e : Thrown)
  (email' password' : jsstring) :
  signInCalls (handleLogin email' password' s) = signInCalls s ++ [(email', password')] /\
  loginLoading (handleLogin email' password' s) = true /\
  (message <> [] ->
   handleLogin_settled (Fulfilled (Some message)) s
   = mkLogin message false (signInCalls s) (loginPushed s)) /\
  handleLogin_settled (Fulfilled None) s
  = mkLogin (loginError s) false (signInCalls s) (loginPushed s ++ [js "/app"]) /\
  handleLogin_settled (Rejected e) s
  = mkLogin (js "Failed to sign in. Please check your credentials.") false
      (signInCalls s) (loginPushed s) /\
  (forall result,
     loginPushed (handleLogin_settled result s) <> loginPushed s ->
     result = Fulfilled None \/ result = Fulfilled (Some [])).
Proof.
  repeat split.
  - intros Hm. destruct message; [congruence|reflexivity].
  - intros [[[|c t]|]|e'] H; cbn in H; auto; contradiction.
Qed.

Lemma login_submit_witness :
  handleLogin_settled (Fulfilled (Some (js "Invalid login credentials")))
    (mkLogin [] true [] [])
  = mkLogin (js "Invalid login credentials") false [] [].
Proof.
  apply (proj1 (proj2 (proj2
    (login_submit (mkLogin [] true [] []) (js "Invalid login credentials")
       NotAnError [] [])))).
  discriminate.
Defined.

End ChatAndLogin.

(** ** The readiness monitor between renders *)

Section Renders.

(** A flushed step is a piece and the render after it. *)
Lemma step_acts st ev :
  store (acts (mkComponent st st) [Piece ev; Render]) = step st ev.
Proof. cbn. rewrite <- handle_handleIn. reflexivity. Qed.

Lemma runHealthCheck_frame r st :
  healthInterval (runHealthCheck r st) = healthInterval st /\
  isMountedRef (runHealthCheck r st) = isMountedRef st.
Proof.
  unfold runHealthCheck, healthPaths, runHealthCheck_loop.
  case_split; cbn; split; reflexivity.
Qed.

Lemma fetched_frame response st :
  healthInterval (runHealthCheck_fetched response st) = healthInterval st /\
  isMountedRef (runHealthCheck_fetched response st) = isMountedRef st.
Proof.
  unfold runHealthCheck_fetched, runHealthCheck_loop, runHealthCheck_finish.
  case_split; cbn; split; reflexivity.
Qed.

(** A piece leaves the interval and the liveness flag alone, or it is the
    unmount. *)
Lemma handleIn_monitor r ev st :
  (healthInterval (handleIn r ev st) = healthInterval st /\
   isMountedRef (handleIn r ev st) = isMountedRef st) \/
  (healthInterval (handleIn r ev st) = false /\
   isMountedRef (handleIn r ev st) = false).
Proof.
  destruct (healthEvent ev) eqn:He.
  - destruct ev; try discriminate; cbn [handleIn handle].
    + left. unfold intervalTick. destruct (healthInterval st) eqn:Hi.
      * destruct (runHealthCheck_frame (setBackendReady false st) st) as [A B].
        split; [rewrite A; exact Hi|exact B].
      * split; [exact Hi|reflexivity].
    + left. destruct (backendReady r || backendChecking r); [split; reflexivity|].
      apply runHealthCheck_frame.
    + left. apply fetched_frame.
    + right. split; reflexivity.
  - left. destruct (handleIn_quiet r ev st He) as [Hq Hm].
    unfold readiness in Hq. split; congruence.
Qed.

Lemma commit_unmounted before after :
  isMountedRef after = false -> commit before after = after.
Proof. intros H. unfold commit. rewrite H. reflexivity. Qed.

Lemma commit_interval before after :
  backendReady after = true ->
  (backendReady before = true -> healthInterval after = false) ->
  (isMountedRef after = false -> healthInterval after = false) ->
  healthInterval (commit before after) = false.
Proof.
  intros Ha Hb Hm. destruct (isMountedRef after) eqn:Hl.
  - destruct (backendReady before) eqn:Hr.
    + pose proof (commit_quiet before after) as Hq. unfold readiness in Hq.
      rewrite Hr, Ha in Hq. specialize (Hq eq_refl).
      injection Hq as _ _ Hi _. rewrite Hi. apply Hb. reflexivity.
    + pose proof (commit_latch before after Hr Ha Hl) as Hq. unfold readiness in Hq.
      injection Hq as _ _ Hi _. exact Hi.
  - rewrite commit_unmounted by exact Hl. apply Hm. reflexivity.
Qed.

Lemma act_cleanedUp c m : cleanedUp c -> cleanedUp (act c m).
Proof.
  intros [Hr Hm]. destruct m as [ev|]; cbn [act]; unfold cleanedUp; cbn [rendered store].
  - destruct (handleIn_monitor (rendered c) ev (store c)) as [[Hi Hl]|[Hi Hl]].
    + rewrite Hi, Hl. split; [|exact Hm].
      intros H. destruct (Hr H) as [H1 H2]. split; [|exact H2].
      apply handleIn_ready, H1.
    + split; [|intros _; exact Hi].
      intros H. destruct (Hr H) as [H1 _]. split; [|exact Hi].
      apply handleIn_ready, H1.
  - assert (Hready : backendReady (store c) = true ->
                     healthInterval (commit (rendered c) (store c)) = false).
    { intros H. apply commit_interval; [exact H| |exact Hm].
      intros H'. apply (Hr H'). }
    split.
    + intros H. split; [|apply Hready, H].
      rewrite commit_backendReady. exact H.
    + intros H.
      destruct (commit_frame (rendered c) (store c)) as [_ [_ [Hl _]]].
      rewrite Hl in H. rewrite commit_unmounted by exact H. apply Hm, H.
Qed.

Lemma acts_cleanedUp ms c : cleanedUp c -> cleanedUp (acts c ms).
Proof.
  revert c; induction ms as [|m ms IH]; intros c H; [exact H|].
  change (acts c (m :: ms)) with (acts (act c m) ms).
  apply IH, act_cleanedUp, H.
Qed.

Lemma mounted_cleanedUp mobile signedIn : cleanedUp (mounted mobile signedIn).
Proof.
  split; [discriminate|]. destruct mobile, signedIn; discriminate.
Qed.

(** Under a render that saw [backendReady], with no health check
    suspended, a moment changes nothing of the monitor. *)
Lemma act_latch c m :
  cleanedUp c -> backendReady (rendered c) = true -> healthRun (store c) = None ->
  readiness (store (act c m)) = readiness (store c) /\
  backendReady (rendered (act c m)) = true.
Proof.
  intros [Hr _] Hready Hrun. destruct (Hr Hready) as [Hs Hi].
  destruct m as [ev|]; cbn [act rendered store].
  - split; [|exact Hready]. destruct (healthEvent ev) eqn:He.
    + destruct ev; try discriminate; cbn [handleIn handle].
      * unfold intervalTick. rewrite Hi. reflexivity.
      * rewrite Hready. reflexivity.
      * unfold runHealthCheck_fetched. rewrite Hrun. reflexivity.
      * unfold readiness, probes, healthEffect_cleanup. cbn. rewrite Hi. reflexivity.
    + apply (handleIn_quiet _ ev _ He).
  - split; [|exact Hs]. apply commit_quiet. congruence.
Qed.

Lemma acts_latch ms c :
  cleanedUp c -> backendReady (rendered c) = true -> healthRun (store c) = None ->
  readiness (store (acts c ms)) = readiness (store c) /\
  backendReady (rendered (acts c ms)) = true.
Proof.
  revert c; induction ms as [|m ms IH]; intros c Hc Hready Hrun; [split; auto|].
  change (acts c (m :: ms)) with (acts (act c m) ms).
  destruct (act_latch c m Hc Hready Hrun) as [Hq Hr'].
  destruct (IH (act c m) (act_cleanedUp c m Hc) Hr') as [Hq' Hr''].
  - unfold readiness in Hq. congruence.
  - split; [congruence|exact Hr''].
Qed.

(** The latch, from the render on.  Take any run of the component, the
    renders being moments of their own, and a point of it where the last
    render saw [backendReady], its effects and clean-ups have run, and no
    health check is suspended.  Whatever comes after it --- ticks, clicks,
    remote calls that fail, renders --- [backendReady] stays true in the
    store and in the render, no health probe is sent, no health check is
    suspended, no interval is installed, and a tick and a click on
    "Check again now" change nothing. *)
Theorem ready_render_latch (mobile signedIn : bool) (before after : list Moment) :
  let c := acts (mounted mobile signedIn) before in
  let c' := acts c after in
  backendReady (rendered c) = true -> healthRun (store c) = None ->
  backendReady (store c') = true /\
  backendReady (rendered c') = true /\
  probes (store c') = probes (store c) /\
  healthRun (store c') = None /\
  healthInterval (store c') = false /\
  handleIn (rendered c') Tick (store c') = store c' /\
  handleIn (rendered c') CheckAgain (store c') = store c'.
Proof.
  cbn zeta. intros Hready Hrun.
  pose proof (acts_cleanedUp before _ (mounted_cleanedUp mobile signedIn)) as Hc.
  destruct (acts_latch after _ Hc Hready Hrun) as [Hq Hr'].
  pose proof (acts_cleanedUp after _ Hc) as [Hc' _].
  destruct (Hc' Hr') as [Hs Hi].
  unfold readiness in Hq. injection Hq as _ Hq2 _ Hq4.
  repeat split; auto.
  - congruence.
  - cbn [handleIn handle]. unfold intervalTick. rewrite Hi. reflexivity.
  - cbn [handleIn]. rewrite Hr'. reflexivity.
Qed.

(** The first probe is answered and the component renders; then a tick, a
    failed message load, a failed send, a click and a render. *)
Lemma ready_render_latch_witness :
  let c :=
    acts (mounted false true) [Piece (Fetched (Fulfilled 200%Z)); Render] in
  let c' :=
    acts c
      [Piece Tick; Piece (MessagesLoaded (js "a") (Rejected NotAnError) 3);
       Piece (SendReplied (js "a") (Rejected (ErrorObject (js "boom"))) (DateNow 4) 4);
       Piece CheckAgain; Render] in
  backendReady (store c') = true /\
  backendReady (rendered c') = true /\
  probes (store c') = probes (store c) /\
  healthRun (store c') = None /\
  healthInterval (store c') = false /\
  handleIn (rendered c') Tick (store c') = store c' /\
  handleIn (rendered c') CheckAgain (store c') = store c'.
Proof.
  exact (ready_render_latch false true
           [Piece (Fetched (Fulfilled 200%Z)); Render]
           [Piece Tick; Piece (MessagesLoaded (js "a") (Rejected NotAnError) 3);
            Piece (SendReplied (js "a") (Rejected (ErrorObject (js "boom")))
                     (DateNow 4) 4);
            Piece CheckAgain; Render] eq_refl eq_refl).
Defined.

Lemma acts_ready ms c :
  backendReady (store c) = true -> backendReady (store (acts c ms)) = true.
Proof.
  revert c; induction ms as [|m ms IH]; intros c H; [exact H|].
  change (acts c (m :: ms)) with (acts (act c m) ms). apply IH.
  destruct m as [ev|]; cbn [act store].
  - apply handleIn_ready, H.
  - rewrite commit_backendReady. exact H.
Qed.

(** [backendReady] is never set back: from any state of the component in
    which the cell is true, it is true after any pieces of any handlers,
    created in whatever renders, and any renders in between. *)
Theorem backend_ready_never_reset (c : Component) (ms : list Moment) :
  backendReady (store c) = true -> backendReady (store (acts c ms)) = true.
Proof. apply acts_ready. Qed.

(** Ready, then the late tick and its check, which fails at both paths. *)
Lemma backend_ready_never_reset_witness :
  backendReady
    (store
       (acts (acts (mounted false true) [Piece (Fetched (Fulfilled 200%Z))])
          [Piece Tick; Piece (Fetched (Rejected NotAnError));
           Piece (Fetched (Fulfilled 503%Z)); Render]))
  = true.
Proof.
  exact (backend_ready_never_reset
           (acts (mounted false true) [Piece (Fetched (Fulfilled 200%Z))])
           [Piece Tick; Piece (Fetched (Rejected NotAnError));
            Piece (Fetched (Fulfilled 503%Z)); Render] eq_refl).
Defined.

End Renders.
